(** * Dashboardd.py: the aggregation pipeline of the order dashboard

    A shallow embedding of [src/Dashboardd.py].  The script loads a table of
    order lines, restricts it to a date range picked in the sidebar, and feeds
    the restricted table to six aggregation functions whose results are bound
    to metrics and charts.

    Modelling conventions.
    - A data frame is the list of its rows, in index order.  Every cell is
      present (no missing value in the loaded table).
    - [order_date] and [delivery_date] are pandas timestamps: an integer count
      of nanoseconds since 1970-01-01T00:00.  A calendar date ([datetime.date],
      the result of [.dt.date] and of the sidebar's date picker) is its day
      number since 1970-01-01; [(a - b).days] is then a subtraction.
    - [quantity_x] and [total_price] are exact integers; no statement below
      depends on rounding.
    - [groupby] keeps pandas' defaults: group keys sorted ascending, one group
      per distinct key.  [resample(rule='D')] yields one bin per calendar day
      between the first and the last timestamp, empty bins included. *)

From Stdlib Require Import ZArith List String Bool Lia.
From Stdlib Require Import Permutation Sorted.
Import ListNotations.

Open Scope Z_scope.

(** ** Calendar *)

Module Calendar.

Definition ns_per_day : Z := 86400 * 1000000000.

(** Day number of a proleptic Gregorian date, 1970-01-01 being day 0. *)
Definition days_from_civil (y m d : Z) : Z :=
  let y' := if m <=? 2 then y - 1 else y in
  let era := y' / 400 in
  let yoe := y' - era * 400 in
  let mp := (m + 9) mod 12 in
  let doy := (153 * mp + 2) / 5 + d - 1 in
  let doe := yoe * 365 + yoe / 4 - yoe / 100 + doy in
  era * 146097 + doe - 719468.

(** [series.dt.date]: the calendar day a timestamp falls on. *)
Definition dt_date (ts : Z) : Z := ts / ns_per_day.

(** [pd.to_datetime(date)]: midnight at the start of that day. *)
Definition to_datetime (date : Z) : Z := date * ns_per_day.

(** A timestamp written as date and time of day. *)
Definition timestamp (y m d hh mm ss : Z) : Z :=
  to_datetime (days_from_civil y m d) + ((hh * 60 + mm) * 60 + ss) * 1000000000.

(** [pd.date_range(lo, hi, freq='D')] on day numbers. *)
Definition date_range (lo hi : Z) : list Z :=
  map (fun i => lo + Z.of_nat i) (seq 0 (Z.to_nat (hi - lo + 1))).

End Calendar.
Import Calendar.

(** ** Tables *)

Record Row := mkRow {
  order_id : Z;
  customer_id : Z;
  order_date : Z;
  delivery_date : Z;
  product_name : string;
  quantity_x : Z;
  total_price : Z;
  gender : string;
  age_group : string;
  state : string
}.

Definition DataFrame := list Row.

(** ** Series reductions *)

Definition series_sum (l : list Z) : Z := fold_right Z.add 0 l.

(** [Series.nunique()] *)
Definition nunique (l : list Z) : Z := Z.of_nat (List.length (nodup Z.eq_dec l)).

(** [Series.max()] and [Series.min()]; an empty series has none (NaN/NaT). *)
Definition series_max (l : list Z) : option Z :=
  match l with
  | [] => None
  | x :: t => Some (fold_left Z.max t x)
  end.

Definition series_min (l : list Z) : option Z :=
  match l with
  | [] => None
  | x :: t => Some (fold_left Z.min t x)
  end.

(** ** Sorting

    A stable insertion sort stands for [sort_values] and for the key order
    of [groupby]; pandas leaves the order of ties open. *)

Section Sorting.

Context {A : Type}.
Variable leb : A -> A -> bool.

Fixpoint insert_sorted (x : A) (l : list A) : list A :=
  match l with
  | [] => [x]
  | y :: t => if leb x y then x :: y :: t else y :: insert_sorted x t
  end.

Definition sort_by (l : list A) : list A := fold_right insert_sorted [] l.

End Sorting.

(** ** groupby *)

Section GroupBy.

Context {K : Type}.
Variable eq_dec : forall x y : K, {x = y} + {x <> y}.
Variable leb : K -> K -> bool.
Variable key : Row -> K.

Definition has_key (k : K) (r : Row) : bool :=
  if eq_dec (key r) k then true else false.

Definition group_keys (df : DataFrame) : list K :=
  sort_by leb (nodup eq_dec (map key df)).

(** [df.groupby(key)]: the groups in ascending key order, each with the
    rows carrying that key, in frame order. *)
Definition groupby (df : DataFrame) : list (K * DataFrame) :=
  map (fun k => (k, filter (has_key k) df)) (group_keys df).

End GroupBy.

Definition groupby_Z := @groupby Z Z.eq_dec Z.leb.
Definition groupby_string := @groupby string string_dec String.leb.

(** ** The six aggregators *)

Module Daily.
Record row := mk {
  order_date : Z;     (* the bin's label: midnight of the day *)
  order_count : Z;
  revenue : Z
}.
End Daily.

(** [df.resample(rule='D', on='order_date')]: one bin per calendar day from
    the day of the earliest timestamp to the day of the latest one. *)
Definition resample_D (df : DataFrame) : list (Z * DataFrame) :=
  match series_min (map order_date df), series_max (map order_date df) with
  | Some lo, Some hi =>
      map (fun d => (to_datetime d,
                     filter (fun r => dt_date (order_date r) =? d) df))
          (date_range (dt_date lo) (dt_date hi))
  | _, _ => []
  end.

Definition create_daily_orders_df (df : DataFrame) : list Daily.row :=
  map (fun bin =>
         Daily.mk (fst bin)
                  (nunique (map order_id (snd bin)))
                  (series_sum (map total_price (snd bin))))
      (resample_D df).

(** [df.groupby("product_name").quantity_x.sum().sort_values(ascending=False)] *)
Definition create_sum_order_items_df (df : DataFrame) : list (string * Z) :=
  sort_by (fun a b => snd b <=? snd a)
    (map (fun g => (fst g, series_sum (map quantity_x (snd g))))
         (groupby_string product_name df)).

Definition count_customers {K : Type} (groups : list (K * DataFrame)) : list (K * Z) :=
  map (fun g => (fst g, nunique (map customer_id (snd g)))) groups.

Definition create_bygender_df (df : DataFrame) : list (string * Z) :=
  count_customers (groupby_string gender df).

Module ByAge.
(** A cell of a categorical column holds one of the categories or NaN. *)
Record row := mk {
  age_group : option string;
  customer_count : Z
}.
Record frame := mkFrame {
  categories : list string;
  rows : list row
}.
End ByAge.

(** [pd.Categorical(values, categories)] on one value: a value that is not
    one of the categories becomes NaN. *)
Definition Categorical (cats : list string) (v : string) : option string :=
  if in_dec string_dec v cats then Some v else None.

Definition age_categories : list string := ["Youth"; "Adults"; "Seniors"]%string.

Definition create_byage_df (df : DataFrame) : ByAge.frame :=
  let byage_df := count_customers (groupby_string age_group df) in
  ByAge.mkFrame age_categories
    (map (fun g => ByAge.mk (Categorical age_categories (fst g)) (snd g)) byage_df).

Definition create_bystate_df (df : DataFrame) : list (string * Z) :=
  count_customers (groupby_string state df).

Module Rfm.
Record row := mk {
  customer_id : Z;
  frequency : Z;
  monetary : Z;
  recency : Z
}.
End Rfm.

(** The ["order_date": "max"] cell of a group.  A group of [groupby] is never
    empty (lemma [groupby_group_nonempty]); the [None] branch is there for
    totality only. *)
Definition max_order_timestamp (g : DataFrame) : Z :=
  match series_max (map order_date g) with
  | Some ts => ts
  | None => 0
  end.

(** [recent_date] is the latest day of the frame handed in.  An empty frame
    has no group, and [apply] has no row to run on. *)
Definition create_rfm_df (df : DataFrame) : list Rfm.row :=
  match series_max (map (fun r => dt_date (order_date r)) df) with
  | None => []
  | Some recent_date =>
      map (fun g =>
             Rfm.mk (fst g)
                    (nunique (map order_id (snd g)))
                    (series_sum (map total_price (snd g)))
                    (recent_date - dt_date (max_order_timestamp (snd g))))
          (groupby_Z customer_id df)
  end.

(** ** The script body: filter, then aggregate *)

(** The sidebar hands over two calendar dates; a row is kept when its
    timestamp lies between the two converted dates. *)
Definition main_df (all_df : DataFrame) (start_date end_date : Z) : DataFrame :=
  filter (fun r => (to_datetime start_date <=? order_date r)
                   && (order_date r <=? to_datetime end_date))
         all_df.

Record Aggregates := mkAggregates {
  daily_orders_df : list Daily.row;
  sum_order_items_df : list (string * Z);
  bygender_df : list (string * Z);
  byage_df : ByAge.frame;
  bystate_df : list (string * Z);
  rfm_df : list Rfm.row
}.

Definition prepare (all_df : DataFrame) (start_date end_date : Z) : Aggregates :=
  let main := main_df all_df start_date end_date in
  mkAggregates (create_daily_orders_df main)
               (create_sum_order_items_df main)
               (create_bygender_df main)
               (create_byage_df main)
               (create_bystate_df main)
               (create_rfm_df main).

(** The "Total Orders" metric. *)
Definition total_orders (daily : list Daily.row) : Z :=
  series_sum (map Daily.order_count daily).

(** [px.bar(byage_df, x="age_group", ...)]: one bar per row that has a
    category.  The call passes no [category_orders], so the axis takes the
    labels in the order the rows come. *)
Definition age_chart_labels (f : ByAge.frame) : list string :=
  flat_map (fun r => match ByAge.age_group r with
                     | Some c => [c]
                     | None => []
                     end)
           (ByAge.rows f).

(** ** The loader and the product charts *)

(** [all_df.sort_values(by="order_date")] followed by [reset_index]: the
    rows of the CSV file in ascending order of their order timestamp. *)
Definition load_data (csv : DataFrame) : DataFrame :=
  sort_by (fun a b => order_date a <=? order_date b) csv.

Definition min_date (all_df : DataFrame) : option Z :=
  series_min (map order_date all_df).

Definition max_date (all_df : DataFrame) : option Z :=
  series_max (map order_date all_df).

(** [sum_order_items_df.head(5)] *)
Definition best_product (sum_order_items_df : list (string * Z)) : list (string * Z) :=
  firstn 5 sum_order_items_df.

(** [sum_order_items_df.sort_values("quantity_x").head(5)] *)
Definition worst_product (sum_order_items_df : list (string * Z)) : list (string * Z) :=
  firstn 5 (sort_by (fun a b => snd a <=? snd b) sum_order_items_df).

(** ** Vocabulary of the statements *)

(** The calendar day an order line is dated on. *)
Definition day_of (r : Row) : Z := dt_date (order_date r).

(** [d] is the day of some row of [df] and no row is dated earlier. *)
Definition is_earliest_day (d : Z) (df : DataFrame) : bool :=
  existsb (fun r => day_of r =? d) df && forallb (fun r => d <=? day_of r) df.

(** [d] is the day of some row of [df] and no row is dated later. *)
Definition is_latest_day (d : Z) (df : DataFrame) : bool :=
  existsb (fun r => day_of r =? d) df && forallb (fun r => day_of r <=? d) df.

(** All the lines of one order carry the same calendar day. *)
Definition one_day_per_order (df : DataFrame) : bool :=
  forallb (fun r1 =>
             forallb (fun r2 =>
                        implb (order_id r1 =? order_id r2) (day_of r1 =? day_of r2))
                     df)
          df.

(** The row [create_daily_orders_df] builds for the bin of day [d]. *)
Definition daily_bin (df : DataFrame) (d : Z) : Daily.row :=
  Daily.mk (to_datetime d)
           (nunique (map order_id (filter (fun r => dt_date (order_date r) =? d) df)))
           (series_sum (map total_price (filter (fun r => dt_date (order_date r) =? d) df))).

(** The row [create_rfm_df] builds for customer [k] when the latest day of
    the frame is [recent_date]. *)
Definition rfm_row (df : DataFrame) (recent_date k : Z) : Rfm.row :=
  Rfm.mk k
         (nunique (map order_id (filter (has_key Z.eq_dec customer_id k) df)))
         (series_sum (map total_price (filter (has_key Z.eq_dec customer_id k) df)))
         (recent_date
          - dt_date (max_order_timestamp (filter (has_key Z.eq_dec customer_id k) df))).

(** The lines of customer [c]. *)
Definition orders_of (c : Z) (df : DataFrame) : DataFrame :=
  filter (fun r => customer_id r =? c) df.

(** Every timestamp of the table is a midnight: the file carries dates
    without a time of day. *)
Definition date_only (df : DataFrame) : bool :=
  forallb (fun r => order_date r =? to_datetime (day_of r)) df.

(** All the lines of one customer carry the same value in column [col]. *)
Definition one_value_per_customer (col : Row -> string) (df : DataFrame) : bool :=
  forallb (fun r1 =>
             forallb (fun r2 =>
                        implb (customer_id r1 =? customer_id r2)
                              (String.eqb (col r1) (col r2)))
                     df)
          df.

(** All the lines of one order carry the same customer. *)
Definition one_customer_per_order (df : DataFrame) : bool :=
  forallb (fun r1 =>
             forallb (fun r2 =>
                        implb (order_id r1 =? order_id r2)
                              (customer_id r1 =? customer_id r2))
                     df)
          df.

(** A line of the order table with product, quantity, gender and state
    given, for the examples that vary them. *)
Definition item_line (oid cid ts : Z) (product : string) (qty price : Z)
           (gen age st : string) : Row :=
  mkRow oid cid ts ts product qty price gen age st.

(** A line of the order table with the columns the examples do not vary
    filled in. *)
Definition order_line (oid cid ts price : Z) (age : string) : Row :=
  mkRow oid cid ts ts "T-shirt" 1 price "Female" age "New South Wales".

Example days_from_civil_epoch : days_from_civil 1970 1 1 = 0.
Proof. reflexivity. Qed.

Example days_from_civil_2024 : days_from_civil 2024 1 1 = 19723.
Proof. reflexivity. Qed.

(** * Properties *)

(** ** Sums, extrema, sorting *)

Lemma series_sum_cons (x : Z) (l : list Z) :
  series_sum (x :: l) = x + series_sum l.
Proof. reflexivity. Qed.

Lemma series_sum_app (l l' : list Z) :
  series_sum (l ++ l') = series_sum l + series_sum l'.
Proof.
  induction l as [|x l IH]; simpl; [reflexivity|].
  rewrite IH; lia.
Qed.

Lemma series_sum_perm (l l' : list Z) :
  Permutation l l' -> series_sum l = series_sum l'.
Proof.
  induction 1; simpl; lia.
Qed.

Lemma fold_left_max_spec (t : list Z) (x : Z) :
  let m := fold_left Z.max t x in
  In m (x :: t) /\ forall y, In y (x :: t) -> y <= m.
Proof.
  revert x; induction t as [|a t IH]; intros x; simpl.
  - split; [now left|]. intros y [<-|[]]; lia.
  - destruct (IH (Z.max x a)) as [Hin Hle]; simpl in Hin. split.
    + destruct Hin as [Hm|Hm]; [|now right; right].
      rewrite <- Hm. destruct (Z.max_spec x a) as [[_ ->]|[_ ->]]; auto.
    + intros y [<-|[<-|Hy]].
      * specialize (Hle (Z.max x a) (or_introl eq_refl)); lia.
      * specialize (Hle (Z.max x a) (or_introl eq_refl)); lia.
      * apply Hle; now right.
Qed.

Lemma fold_left_min_spec (t : list Z) (x : Z) :
  let m := fold_left Z.min t x in
  In m (x :: t) /\ forall y, In y (x :: t) -> m <= y.
Proof.
  revert x; induction t as [|a t IH]; intros x; simpl.
  - split; [now left|]. intros y [<-|[]]; lia.
  - destruct (IH (Z.min x a)) as [Hin Hle]; simpl in Hin. split.
    + destruct Hin as [Hm|Hm]; [|now right; right].
      rewrite <- Hm. destruct (Z.min_spec x a) as [[_ ->]|[_ ->]]; auto.
    + intros y [<-|[<-|Hy]].
      * specialize (Hle (Z.min x a) (or_introl eq_refl)); lia.
      * specialize (Hle (Z.min x a) (or_introl eq_refl)); lia.
      * apply Hle; now right.
Qed.

Lemma series_max_spec (l : list Z) (m : Z) :
  series_max l = Some m -> In m l /\ forall y, In y l -> y <= m.
Proof.
  destruct l as [|x t]; simpl; [discriminate|].
  intros [= <-]. apply fold_left_max_spec.
Qed.

Lemma series_min_spec (l : list Z) (m : Z) :
  series_min l = Some m -> In m l /\ forall y, In y l -> m <= y.
Proof.
  destruct l as [|x t]; simpl; [discriminate|].
  intros [= <-]. apply fold_left_min_spec.
Qed.

Lemma series_max_some (l : list Z) :
  l <> [] -> exists m, series_max l = Some m.
Proof. destruct l; [congruence|]; simpl; eauto. Qed.

Lemma series_min_some (l : list Z) :
  l <> [] -> exists m, series_min l = Some m.
Proof. destruct l; [congruence|]; simpl; eauto. Qed.

Section SortingFacts.

Context {A : Type}.
Variable leb : A -> A -> bool.

Lemma insert_sorted_perm (x : A) (l : list A) :
  Permutation (x :: l) (insert_sorted leb x l).
Proof.
  induction l as [|y t IH]; simpl; [reflexivity|].
  destruct (leb x y); [reflexivity|].
  rewrite perm_swap. now apply perm_skip.
Qed.

Lemma sort_by_perm (l : list A) : Permutation l (sort_by leb l).
Proof.
  induction l as [|x l IH]; simpl; [constructor|].
  rewrite <- insert_sorted_perm. now apply perm_skip.
Qed.

End SortingFacts.

(** ** Calendar facts *)

Lemma ns_per_day_pos : 0 < ns_per_day.
Proof. reflexivity. Qed.

Lemma dt_date_mono (a b : Z) : a <= b -> dt_date a <= dt_date b.
Proof. intros H; unfold dt_date; apply Z.div_le_mono; [exact ns_per_day_pos | exact H]. Qed.

Lemma dt_date_to_datetime (d : Z) : dt_date (to_datetime d) = d.
Proof. unfold dt_date, to_datetime; apply Z.div_mul; discriminate. Qed.

Lemma to_datetime_inj (d d' : Z) : to_datetime d = to_datetime d' -> d = d'.
Proof. intros H; rewrite <- (dt_date_to_datetime d), H; apply dt_date_to_datetime. Qed.

Lemma in_date_range (lo hi d : Z) : In d (date_range lo hi) <-> lo <= d <= hi.
Proof.
  unfold date_range; rewrite in_map_iff; split.
  - intros (i & <- & Hi%in_seq); lia.
  - intros H; exists (Z.to_nat (d - lo)); split; [lia|]; apply in_seq; lia.
Qed.

Lemma NoDup_date_range (lo hi : Z) : NoDup (date_range lo hi).
Proof.
  unfold date_range. apply Finite.Injective_map_NoDup.
  - intros i j H; lia.
  - apply seq_NoDup.
Qed.

(** ** groupby facts *)

Section GroupByFacts.

Context {K : Type}.
Variable eq_dec : forall x y : K, {x = y} + {x <> y}.
Variable leb : K -> K -> bool.
Variable key : Row -> K.

Lemma has_key_true (k : K) (r : Row) : has_key eq_dec key k r = true <-> key r = k.
Proof. unfold has_key; destruct (eq_dec (key r) k); split; congruence. Qed.

Lemma in_group_keys (df : DataFrame) (k : K) :
  In k (group_keys eq_dec leb key df) <-> exists r, In r df /\ key r = k.
Proof.
  unfold group_keys. split.
  - intros H. apply (Permutation_in _ (Permutation_sym (sort_by_perm leb _))) in H.
    apply nodup_In, in_map_iff in H. destruct H as (r & Hk & Hr); eauto.
  - intros (r & Hr & Hk). apply (Permutation_in _ (sort_by_perm leb _)).
    apply nodup_In, in_map_iff; eauto.
Qed.

Lemma NoDup_group_keys (df : DataFrame) : NoDup (group_keys eq_dec leb key df).
Proof.
  unfold group_keys.
  apply (Permutation_NoDup (sort_by_perm leb _)), NoDup_nodup.
Qed.

Lemma in_groupby (df : DataFrame) (k : K) (g : DataFrame) :
  In (k, g) (groupby eq_dec leb key df) <->
  (exists r, In r df /\ key r = k) /\ g = filter (has_key eq_dec key k) df.
Proof.
  unfold groupby; rewrite in_map_iff; split.
  - intros (k' & [= <- <-] & Hk). split; [now apply in_group_keys | reflexivity].
  - intros (Hk & ->). exists k; split; [reflexivity | now apply in_group_keys].
Qed.

Lemma groupby_group_nonempty (df : DataFrame) (k : K) (g : DataFrame) :
  In (k, g) (groupby eq_dec leb key df) -> g <> [].
Proof.
  intros ((r & Hr & Hk) & ->)%in_groupby Hnil.
  assert (Hin : In r (filter (has_key eq_dec key k) df))
    by (apply filter_In; split; [exact Hr | now apply has_key_true]).
  rewrite Hnil in Hin; exact Hin.
Qed.

(** Summing a column group by group gives the column's sum. *)
Lemma sum_indicator (ks : list K) (x : K) (v : Z) :
  NoDup ks -> In x ks ->
  series_sum (map (fun k => if eq_dec x k then v else 0) ks) = v.
Proof.
  induction 1 as [|k ks Hk Hnd IH]; simpl; [tauto|].
  intros [->|Hin].
  - destruct (eq_dec x x) as [_|]; [|congruence].
    assert (Hz : series_sum (map (fun k => if eq_dec x k then v else 0) ks) = 0).
    { clear IH Hnd. induction ks as [|a ks IHks]; simpl; [reflexivity|].
      destruct (eq_dec x a) as [->|_]; [exfalso; apply Hk; now left|].
      rewrite IHks; [reflexivity|]. intros H; apply Hk; now right. }
    lia.
  - destruct (eq_dec x k) as [->|_]; [contradiction|]. now rewrite IH.
Qed.

Lemma sum_by_keys (f : Row -> Z) (ks : list K) (df : DataFrame) :
  NoDup ks -> (forall r, In r df -> In (key r) ks) ->
  series_sum (map (fun k => series_sum (map f (filter (has_key eq_dec key k) df))) ks)
  = series_sum (map f df).
Proof.
  intros Hnd. induction df as [|r df IH]; intros Hcov; simpl.
  - induction ks as [|k ks IHks]; simpl; [reflexivity|].
    rewrite IHks; [reflexivity | now inversion Hnd | intros ? []].
  - rewrite <- IH by (intros; apply Hcov; now right).
    rewrite <- (sum_indicator ks (key r) (f r) Hnd) at 1 by (apply Hcov; now left).
    clear. induction ks as [|k ks IHks]; simpl; [reflexivity|].
    rewrite IHks. unfold has_key at 1. destruct (eq_dec (key r) k); simpl; lia.
Qed.

Lemma sum_by_groups (f : Row -> Z) (df : DataFrame) :
  series_sum (map (fun g => series_sum (map f (snd g))) (groupby eq_dec leb key df))
  = series_sum (map f df).
Proof.
  unfold groupby. rewrite map_map; simpl.
  apply sum_by_keys; [apply NoDup_group_keys|].
  intros r Hr; apply in_group_keys; eauto.
Qed.

End GroupByFacts.

(** ** Product volume *)

(** C5: the per-product quantities of the product-volume table add up to
    the sum of the quantity column of the table it was computed from. *)
Theorem product_volume_total (T : DataFrame) :
  series_sum (map snd (create_sum_order_items_df T))
  = series_sum (map quantity_x T).
Proof.
  unfold create_sum_order_items_df.
  rewrite <- (series_sum_perm _ _ (Permutation_map snd (sort_by_perm _ _))).
  rewrite map_map; simpl.
  apply (sum_by_groups string_dec String.leb product_name quantity_x).
Qed.

(** ** Daily orders *)

Lemma filter_all {A : Type} (f : A -> bool) (l : list A) :
  (forall x, In x l -> f x = true) -> filter f l = l.
Proof.
  induction l as [|x l IH]; simpl; intros H; [reflexivity|].
  rewrite (H x (or_introl eq_refl)), IH; [reflexivity|].
  intros; apply H; now right.
Qed.

Lemma filter_none {A : Type} (f : A -> bool) (l : list A) :
  (forall x, In x l -> f x = false) -> filter f l = [].
Proof.
  induction l as [|x l IH]; simpl; intros H; [reflexivity|].
  rewrite (H x (or_introl eq_refl)). apply IH.
  intros; apply H; now right.
Qed.

(** Among rows built one per key from duplicate-free keys, selecting by key
    finds one row. *)
Lemma filter_map_unique {B : Type} (G : Z -> B) (proj : B -> Z) (inj : Z -> Z)
      (ks : list Z) (c : Z) :
  (forall k, proj (G k) = inj k) ->
  (forall k k', inj k = inj k' -> k = k') ->
  NoDup ks -> In c ks ->
  filter (fun x => proj x =? inj c) (map G ks) = [G c].
Proof.
  intros Hproj Hinj Hnd Hc.
  induction Hnd as [|k ks Hk Hnd IH]; [contradiction|].
  simpl. rewrite Hproj. destruct (Z.eqb_spec (inj k) (inj c)) as [E|E].
  - apply Hinj in E; subst k. f_equal.
    apply filter_none. intros x (k & <- & Hin)%in_map_iff.
    rewrite Hproj. apply Z.eqb_neq. intros E%Hinj. congruence.
  - destruct Hc as [->|Hc]; [congruence|]. now apply IH.
Qed.

Lemma is_earliest_day_spec (d : Z) (df : DataFrame) :
  is_earliest_day d df = true <->
  (exists r, In r df /\ day_of r = d) /\ forall r, In r df -> d <= day_of r.
Proof.
  unfold is_earliest_day.
  rewrite andb_true_iff, existsb_exists, forallb_forall.
  setoid_rewrite Z.eqb_eq. setoid_rewrite Z.leb_le. reflexivity.
Qed.

Lemma is_latest_day_spec (d : Z) (df : DataFrame) :
  is_latest_day d df = true <->
  (exists r, In r df /\ day_of r = d) /\ forall r, In r df -> day_of r <= d.
Proof.
  unfold is_latest_day.
  rewrite andb_true_iff, existsb_exists, forallb_forall.
  setoid_rewrite Z.eqb_eq. setoid_rewrite Z.leb_le. reflexivity.
Qed.

Lemma one_day_per_order_spec (df : DataFrame) :
  one_day_per_order df = true <->
  forall r1 r2, In r1 df -> In r2 df ->
                order_id r1 = order_id r2 -> day_of r1 = day_of r2.
Proof.
  unfold one_day_per_order. rewrite forallb_forall. split.
  - intros H r1 r2 H1 H2 Heq.
    specialize (H r1 H1). rewrite forallb_forall in H. specialize (H r2 H2).
    apply Z.eqb_eq in Heq. rewrite Heq in H. now apply Z.eqb_eq.
  - intros H r1 H1. apply forallb_forall. intros r2 H2.
    destruct (order_id r1 =? order_id r2) eqn:E; [|reflexivity].
    simpl. apply Z.eqb_eq, H; auto. now apply Z.eqb_eq.
Qed.

(** The timestamp extrema of a non-empty table fall on its first and last
    calendar day. *)
Lemma latest_timestamp_day (df : DataFrame) (ts : Z) :
  series_max (map order_date df) = Some ts -> is_latest_day (dt_date ts) df = true.
Proof.
  intros [Hin Hle]%series_max_spec. apply is_latest_day_spec. split.
  - apply in_map_iff in Hin. destruct Hin as (r & <- & Hr). now exists r.
  - intros r Hr. apply dt_date_mono, Hle. now apply in_map.
Qed.

Lemma earliest_timestamp_day (df : DataFrame) (ts : Z) :
  series_min (map order_date df) = Some ts -> is_earliest_day (dt_date ts) df = true.
Proof.
  intros [Hin Hle]%series_min_spec. apply is_earliest_day_spec. split.
  - apply in_map_iff in Hin. destruct Hin as (r & <- & Hr). now exists r.
  - intros r Hr. apply dt_date_mono, Hle. now apply in_map.
Qed.

Lemma is_latest_day_unique (d d' : Z) (df : DataFrame) :
  is_latest_day d df = true -> is_latest_day d' df = true -> d = d'.
Proof.
  intros [(r & Hr & <-) H]%is_latest_day_spec [(r' & Hr' & <-) H']%is_latest_day_spec.
  specialize (H r' Hr'); specialize (H' r Hr); lia.
Qed.

Lemma is_earliest_day_unique (d d' : Z) (df : DataFrame) :
  is_earliest_day d df = true -> is_earliest_day d' df = true -> d = d'.
Proof.
  intros [(r & Hr & <-) H]%is_earliest_day_spec [(r' & Hr' & <-) H']%is_earliest_day_spec.
  specialize (H r' Hr'); specialize (H' r Hr); lia.
Qed.

Lemma create_daily_orders_df_bins (df : DataFrame) (lo hi : Z) :
  is_earliest_day lo df = true -> is_latest_day hi df = true ->
  create_daily_orders_df df = map (daily_bin df) (date_range lo hi).
Proof.
  intros Hlo Hhi. unfold create_daily_orders_df, resample_D.
  destruct (series_min (map order_date df)) as [a|] eqn:Ea.
  - destruct (series_max (map order_date df)) as [b|] eqn:Eb.
    + rewrite (is_earliest_day_unique _ _ _ (earliest_timestamp_day _ _ Ea) Hlo).
      rewrite (is_latest_day_unique _ _ _ (latest_timestamp_day _ _ Eb) Hhi).
      rewrite map_map. reflexivity.
    + destruct df; [|discriminate]. discriminate Hhi.
  - destruct df; [|discriminate]. discriminate Hlo.
Qed.

Lemma create_daily_orders_df_cases (df : DataFrame) :
  df = [] \/
  exists lo hi, is_earliest_day lo df = true /\ is_latest_day hi df = true.
Proof.
  destruct df as [|r df]; [now left|right].
  destruct (series_min_some (map order_date (r :: df))) as [a Ha]; [discriminate|].
  destruct (series_max_some (map order_date (r :: df))) as [b Hb]; [discriminate|].
  exists (dt_date a), (dt_date b).
  split; [now apply earliest_timestamp_day | now apply latest_timestamp_day].
Qed.

Lemma daily_bin_empty (df : DataFrame) (d : Z) :
  (forall r, In r df -> day_of r <> d) ->
  Daily.order_count (daily_bin df d) = 0 /\ Daily.revenue (daily_bin df d) = 0.
Proof.
  intros H.
  assert (E : filter (fun r => dt_date (order_date r) =? d) df = []).
  { apply filter_none. intros r Hr. apply Z.eqb_neq, (H r Hr). }
  unfold daily_bin; simpl. rewrite E. split; reflexivity.
Qed.

(** C9: for a non-empty table whose earliest and latest order days are [lo]
    and [hi], the daily-orders table has exactly one row for every calendar
    day [d] from [lo] to [hi] and no other row; a day on which nothing was
    ordered is there with order_count 0 and revenue 0. *)
Theorem daily_orders_cover_every_day (T : DataFrame) (lo hi : Z) :
  T <> [] ->
  is_earliest_day lo T = true ->
  is_latest_day hi T = true ->
  (forall d, lo <= d <= hi ->
     exists row,
       filter (fun x => Daily.order_date x =? to_datetime d)
              (create_daily_orders_df T) = [row] /\
       ((forall r, In r T -> day_of r <> d) ->
        Daily.order_count row = 0 /\ Daily.revenue row = 0)) /\
  (forall row, In row (create_daily_orders_df T) ->
     exists d, lo <= d <= hi /\ Daily.order_date row = to_datetime d).
Proof.
  intros _ Hlo Hhi.
  rewrite (create_daily_orders_df_bins T lo hi Hlo Hhi). split.
  - intros d Hd. exists (daily_bin T d). split; [|apply daily_bin_empty].
    apply (filter_map_unique (daily_bin T) Daily.order_date to_datetime).
    + reflexivity.
    + exact to_datetime_inj.
    + apply NoDup_date_range.
    + now apply in_date_range.
  - intros row (d & <- & Hd%in_date_range)%in_map_iff. now exists d.
Qed.

Lemma daily_orders_cover_every_day_witness :
  let T := [order_line 1 7 (timestamp 2024 1 1 9 30 0) 10 "Youth";
            order_line 2 7 (timestamp 2024 1 3 0 0 0) 20 "Youth"] in
  exists row,
    filter (fun x => Daily.order_date x =? timestamp 2024 1 2 0 0 0)
           (create_daily_orders_df T) = [row] /\
    Daily.order_count row = 0 /\ Daily.revenue row = 0.
Proof.
  intros T.
  destruct (daily_orders_cover_every_day T
              (days_from_civil 2024 1 1) (days_from_civil 2024 1 3))
    as [H _]; [discriminate | reflexivity | reflexivity |].
  destruct (H (days_from_civil 2024 1 2)) as (row & Hrow & Hzero);
    [vm_compute; split; discriminate|].
  exists row. split; [exact Hrow|].
  apply Hzero. intros r [<-|[<-|[]]]; vm_compute; discriminate.
Defined.

(** Distinct values in day-sized pieces. *)
Lemma nodup_length_split (f g : Row -> bool) (df : DataFrame) :
  (forall r1 r2, In r1 df -> In r2 df -> f r1 = true -> g r2 = true ->
                 order_id r1 <> order_id r2) ->
  List.length (nodup Z.eq_dec (map order_id (filter (fun r => f r || g r) df)))
  = (List.length (nodup Z.eq_dec (map order_id (filter f df)))
     + List.length (nodup Z.eq_dec (map order_id (filter g df))))%nat.
Proof.
  intros Hdisj. rewrite <- length_app. apply Permutation_length.
  apply NoDup_Permutation.
  - apply NoDup_nodup.
  - apply NoDup_app; try apply NoDup_nodup.
    intros x H1 H2. apply nodup_In, in_map_iff in H1, H2.
    destruct H1 as (r1 & E1 & [Hr1 Hf]%filter_In).
    destruct H2 as (r2 & E2 & [Hr2 Hg]%filter_In).
    apply (Hdisj r1 r2); congruence.
  - intros x. rewrite in_app_iff, !nodup_In, !in_map_iff. split.
    + intros (r & E & [Hr Hfg]%filter_In).
      apply orb_true_iff in Hfg as [Hf|Hg]; [left|right];
        exists r; (split; [exact E | apply filter_In; now split]).
    + intros [(r & E & [Hr H]%filter_In)|(r & E & [Hr H]%filter_In)];
        exists r; (split; [exact E | apply filter_In; split; [exact Hr|]]);
        rewrite H; auto using orb_true_r.
Qed.

Lemma nunique_by_days (days : list Z) (df : DataFrame) :
  NoDup days ->
  one_day_per_order df = true ->
  series_sum (map (fun d => Daily.order_count (daily_bin df d)) days)
  = nunique (map order_id
               (filter (fun r => existsb (Z.eqb (dt_date (order_date r))) days) df)).
Proof.
  intros Hnd Hfd. rewrite one_day_per_order_spec in Hfd.
  induction Hnd as [|d days Hd Hnd IH].
  - simpl. rewrite filter_none by reflexivity. reflexivity.
  - rewrite map_cons, series_sum_cons, IH. cbn [existsb daily_bin Daily.order_count].
    unfold nunique.
    rewrite (nodup_length_split (fun r => dt_date (order_date r) =? d)
               (fun r => existsb (Z.eqb (dt_date (order_date r))) days)); [lia|].
    intros r1 r2 H1 H2 E1 E2 Heq.
    apply Z.eqb_eq in E1. apply existsb_exists in E2 as (d' & Hd' & E2%Z.eqb_eq).
    apply Hd. pose proof (Hfd r1 r2 H1 H2 Heq) as Hday. unfold day_of in Hday.
    congruence.
Qed.

(** C1, as the code has it: when all the lines of an order carry one
    calendar day, the order counts of the daily-orders table add up to the
    number of distinct order ids of the table. *)
Theorem daily_order_counts_total (T : DataFrame) :
  one_day_per_order T = true ->
  total_orders (create_daily_orders_df T) = nunique (map order_id T).
Proof.
  intros Hfd.
  destruct (create_daily_orders_df_cases T) as [->|(lo & hi & Hlo & Hhi)];
    [reflexivity|].
  unfold total_orders.
  rewrite (create_daily_orders_df_bins T lo hi Hlo Hhi), map_map.
  rewrite (nunique_by_days _ _ (NoDup_date_range lo hi) Hfd).
  rewrite filter_all; [reflexivity|].
  intros r Hr. apply existsb_exists. exists (day_of r). split; [|apply Z.eqb_refl].
  apply in_date_range.
  apply is_earliest_day_spec in Hlo as [_ Hlo].
  apply is_latest_day_spec in Hhi as [_ Hhi].
  split; [now apply Hlo | now apply Hhi].
Qed.

Lemma daily_order_counts_total_witness :
  let T := [order_line 1 7 (timestamp 2024 1 1 9 30 0) 10 "Youth";
            order_line 1 7 (timestamp 2024 1 1 9 30 0) 15 "Youth";
            order_line 2 8 (timestamp 2024 1 3 0 0 0) 20 "Adults"] in
  one_day_per_order T = true /\
  total_orders (create_daily_orders_df T) = nunique (map order_id T).
Proof.
  intros T. split; [reflexivity|].
  apply (daily_order_counts_total T). reflexivity.
Defined.

(** C1 fails as stated: an order whose lines are dated on two days is
    counted once on each of them. *)
Lemma daily_order_counts_total_counterexample :
  let T := [order_line 1 7 (timestamp 2024 1 1 23 0 0) 10 "Youth";
            order_line 1 7 (timestamp 2024 1 2 1 0 0) 20 "Youth"] in
  T <> [] /\
  total_orders (create_daily_orders_df T) = 2 /\
  nunique (map order_id T) = 1 /\
  total_orders (create_daily_orders_df T) <> nunique (map order_id T).
Proof.
  intros T. repeat split; [discriminate | vm_compute; discriminate].
Qed.

(** ** Recency, frequency, monetary *)

Lemma latest_of_days (df : DataFrame) (m : Z) :
  series_max (map (fun r => dt_date (order_date r)) df) = Some m ->
  is_latest_day m df = true.
Proof.
  intros [Hin Hle]%series_max_spec. apply is_latest_day_spec. split.
  - apply in_map_iff in Hin. destruct Hin as (r & <- & Hr). now exists r.
  - intros r Hr. apply Hle.
    exact (in_map (fun r => dt_date (order_date r)) df r Hr).
Qed.

Lemma group_is_orders_of (c : Z) (df : DataFrame) :
  filter (has_key Z.eq_dec customer_id c) df = orders_of c df.
Proof.
  apply filter_ext. intros r. unfold has_key.
  destruct (Z.eq_dec (customer_id r) c) as [E|E].
  - symmetry; now apply Z.eqb_eq.
  - symmetry; now apply Z.eqb_neq.
Qed.

Lemma max_order_timestamp_day (g : DataFrame) (last : Z) :
  is_latest_day last g = true -> dt_date (max_order_timestamp g) = last.
Proof.
  intros H. unfold max_order_timestamp.
  destruct (series_max (map order_date g)) as [ts|] eqn:E.
  - exact (is_latest_day_unique _ _ _ (latest_timestamp_day _ _ E) H).
  - destruct g; [discriminate H | discriminate E].
Qed.

(** The row [create_rfm_df] builds for customer [c] when the table's latest
    day is [recent_date]. *)
Lemma rfm_row_of_customer (df : DataFrame) (c hi : Z) :
  is_latest_day hi df = true ->
  (exists r, In r df /\ customer_id r = c) ->
  filter (fun x => Rfm.customer_id x =? c) (create_rfm_df df)
  = [Rfm.mk c
            (nunique (map order_id (orders_of c df)))
            (series_sum (map total_price (orders_of c df)))
            (hi - dt_date (max_order_timestamp (orders_of c df)))].
Proof.
  intros Hhi Hc. unfold create_rfm_df.
  destruct (series_max (map (fun r => dt_date (order_date r)) df)) as [m|] eqn:E.
  - rewrite (is_latest_day_unique _ _ _ (latest_of_days _ _ E) Hhi).
    unfold groupby_Z, groupby. rewrite map_map. cbn [fst snd].
    rewrite <- (group_is_orders_of c df).
    apply (filter_map_unique
             (fun k => Rfm.mk k
                (nunique (map order_id (filter (has_key Z.eq_dec customer_id k) df)))
                (series_sum (map total_price (filter (has_key Z.eq_dec customer_id k) df)))
                (hi - dt_date (max_order_timestamp
                                 (filter (has_key Z.eq_dec customer_id k) df))))
             Rfm.customer_id (fun k => k)).
    + reflexivity.
    + auto.
    + apply NoDup_group_keys.
    + now apply in_group_keys.
  - destruct df; [discriminate Hhi | discriminate E].
Qed.

(** C3, as the code has it: for every customer [c] of a non-empty table, the
    RFM table has exactly one row for [c], and its recency is the number of
    days from the customer's most recent order day to the latest order day
    of that same table, the one handed to [create_rfm_df]. *)
Theorem rfm_recency_from_table_max (T : DataFrame) (c hi last : Z) :
  T <> [] ->
  is_latest_day hi T = true ->
  is_latest_day last (orders_of c T) = true ->
  exists row,
    filter (fun x => Rfm.customer_id x =? c) (create_rfm_df T) = [row] /\
    Rfm.recency row = hi - last.
Proof.
  intros _ Hhi Hlast. eexists. split.
  - apply rfm_row_of_customer; [exact Hhi|].
    apply is_latest_day_spec in Hlast as [(r & [Hr Hc]%filter_In & _) _].
    exists r. split; [exact Hr | now apply Z.eqb_eq].
  - cbn [Rfm.recency]. now rewrite (max_order_timestamp_day _ _ Hlast).
Qed.

Lemma rfm_recency_from_table_max_witness :
  let T := [order_line 1 7 (timestamp 2024 1 1 9 30 0) 10 "Youth";
            order_line 2 8 (timestamp 2024 1 2 12 0 0) 20 "Adults";
            order_line 3 7 (timestamp 2024 1 4 8 0 0) 5 "Youth";
            order_line 4 9 (timestamp 2024 1 6 0 0 0) 5 "Seniors"] in
  exists row,
    filter (fun x => Rfm.customer_id x =? 7) (create_rfm_df T) = [row] /\
    Rfm.recency row = 2.
Proof.
  intros T.
  apply (rfm_recency_from_table_max T 7
           (days_from_civil 2024 1 6) (days_from_civil 2024 1 4));
    [discriminate | reflexivity | reflexivity].
Defined.

(** C3 fails as stated: with a date range that ends before the last order of
    the loaded table, recency is counted from the last day inside the range,
    not from the last day of the loaded table. *)
Lemma rfm_recency_counterexample :
  let all_df := [order_line 1 7 (timestamp 2024 1 1 0 0 0) 10 "Youth";
                 order_line 2 8 (timestamp 2024 1 3 0 0 0) 20 "Adults"] in
  let T := main_df all_df (days_from_civil 2024 1 1) (days_from_civil 2024 1 1) in
  T <> [] /\
  is_latest_day (days_from_civil 2024 1 3) all_df = true /\
  is_latest_day (days_from_civil 2024 1 1) (orders_of 7 T) = true /\
  is_latest_day (days_from_civil 2024 1 1) (orders_of 7 all_df) = true /\
  exists row,
    filter (fun x => Rfm.customer_id x =? 7) (create_rfm_df T) = [row] /\
    Rfm.recency row = 0 /\
    Rfm.recency row <> days_from_civil 2024 1 3 - days_from_civil 2024 1 1.
Proof.
  intros all_df T.
  split; [vm_compute; discriminate|].
  repeat (split; [reflexivity|]).
  exists (Rfm.mk 7 1 10 0).
  split; [reflexivity|]. split; [reflexivity|]. vm_compute; discriminate.
Qed.

(** C6: in a non-empty table, a customer who placed an order on the table's
    latest order day has exactly one RFM row, with recency 0. *)
Theorem rfm_recency_of_latest_customer (T : DataFrame) (r : Row) :
  T <> [] ->
  In r T ->
  forallb (fun r' => day_of r' <=? day_of r) T = true ->
  exists row,
    filter (fun x => Rfm.customer_id x =? customer_id r) (create_rfm_df T) = [row] /\
    Rfm.recency row = 0.
Proof.
  intros _ Hr Hmax. rewrite forallb_forall in Hmax.
  assert (Hhi : is_latest_day (day_of r) T = true).
  { apply is_latest_day_spec. split; [now exists r|].
    intros r' Hr'. now apply Z.leb_le, Hmax. }
  assert (Hlast : is_latest_day (day_of r) (orders_of (customer_id r) T) = true).
  { apply is_latest_day_spec. split.
    - exists r. split; [|reflexivity].
      apply filter_In. split; [exact Hr | apply Z.eqb_refl].
    - intros r' [Hr' _]%filter_In. now apply Z.leb_le, Hmax. }
  eexists. split.
  - apply rfm_row_of_customer; [exact Hhi | now exists r].
  - cbn [Rfm.recency]. rewrite (max_order_timestamp_day _ _ Hlast). lia.
Qed.

Lemma rfm_recency_of_latest_customer_witness :
  let r := order_line 3 8 (timestamp 2024 1 4 8 0 0) 5 "Adults" in
  let T := [order_line 1 7 (timestamp 2024 1 1 9 30 0) 10 "Youth";
            order_line 2 8 (timestamp 2024 1 2 12 0 0) 20 "Adults";
            r;
            order_line 4 9 (timestamp 2024 1 4 0 0 0) 5 "Seniors"] in
  exists row,
    filter (fun x => Rfm.customer_id x =? 8) (create_rfm_df T) = [row] /\
    Rfm.recency row = 0.
Proof.
  intros r T.
  apply (rfm_recency_of_latest_customer T r);
    [discriminate | simpl; auto | reflexivity].
Defined.

(** ** The two-order example *)

Lemma dt_date_max (a b : Z) : dt_date (Z.max a b) = Z.max (dt_date a) (dt_date b).
Proof.
  destruct (Z.le_ge_cases a b) as [H|H].
  - rewrite !Z.max_r; auto using dt_date_mono.
  - rewrite !Z.max_l; auto using dt_date_mono.
Qed.

(** C2, as the code has it: two orders of one customer, dated 2024-01-01 and
    2024-01-03, with total_price 10 and 20.  The daily-orders table has three
    rows, the day in between included: order counts (1, 0, 1) and revenues
    (10, 0, 20).  The RFM table has one row for the customer: frequency 2,
    monetary 30, recency 0. *)
Theorem two_orders_example (r1 r2 : Row) :
  day_of r1 = days_from_civil 2024 1 1 ->
  day_of r2 = days_from_civil 2024 1 3 ->
  customer_id r2 = customer_id r1 ->
  order_id r1 <> order_id r2 ->
  total_price r1 = 10 ->
  total_price r2 = 20 ->
  create_daily_orders_df [r1; r2]
  = [Daily.mk (timestamp 2024 1 1 0 0 0) 1 10;
     Daily.mk (timestamp 2024 1 2 0 0 0) 0 0;
     Daily.mk (timestamp 2024 1 3 0 0 0) 1 20] /\
  create_rfm_df [r1; r2] = [Rfm.mk (customer_id r1) 2 30 0].
Proof.
  intros H1 H2 Hc Ho Hp1 Hp2. unfold day_of in H1, H2. split.
  - rewrite (create_daily_orders_df_bins [r1; r2]
               (days_from_civil 2024 1 1) (days_from_civil 2024 1 3)).
    + change (date_range (days_from_civil 2024 1 1) (days_from_civil 2024 1 3))
        with [19723; 19724; 19725].
      unfold daily_bin. cbn [map filter]. rewrite H1, H2.
      change (days_from_civil 2024 1 1) with 19723.
      change (days_from_civil 2024 1 3) with 19725.
      cbn [Z.eqb Pos.eqb map]. rewrite Hp1, Hp2. reflexivity.
    + unfold is_earliest_day, day_of; cbn [existsb forallb]. rewrite H1, H2. reflexivity.
    + unfold is_latest_day, day_of; cbn [existsb forallb]. rewrite H1, H2. reflexivity.
  - unfold create_rfm_df. cbn [map series_max fold_left]. rewrite H1, H2.
    change (Z.max (days_from_civil 2024 1 1) (days_from_civil 2024 1 3))
      with 19725.
    assert (Hkeys : group_keys Z.eq_dec Z.leb customer_id [r1; r2] = [customer_id r1]).
    { unfold group_keys. cbn [map]. rewrite Hc. simpl.
      destruct (Z.eq_dec (customer_id r1) (customer_id r1)) as [_|Hne]; [|congruence].
      reflexivity. }
    unfold groupby_Z, groupby. rewrite Hkeys. cbn [map fst snd filter].
    unfold has_key. rewrite Hc.
    destruct (Z.eq_dec (customer_id r1) (customer_id r1)) as [_|Hne]; [|congruence].
    unfold nunique, max_order_timestamp. cbn [map series_max fold_left series_sum fold_right].
    rewrite dt_date_max, H1, H2, Hp1, Hp2. simpl.
    destruct (Z.eq_dec (order_id r2) (order_id r1)) as [E|_]; [congruence|].
    reflexivity.
Qed.

Lemma two_orders_example_witness :
  let r1 := order_line 101 7 (timestamp 2024 1 1 0 0 0) 10 "Youth" in
  let r2 := order_line 102 7 (timestamp 2024 1 3 0 0 0) 20 "Youth" in
  create_daily_orders_df [r1; r2]
  = [Daily.mk (timestamp 2024 1 1 0 0 0) 1 10;
     Daily.mk (timestamp 2024 1 2 0 0 0) 0 0;
     Daily.mk (timestamp 2024 1 3 0 0 0) 1 20] /\
  create_rfm_df [r1; r2] = [Rfm.mk 7 2 30 0].
Proof.
  intros r1 r2.
  apply (two_orders_example r1 r2);
    try reflexivity; vm_compute; discriminate.
Defined.

(** C2 fails as stated: the daily-orders table of the example has a third
    row, for 2024-01-02, so its order counts are not (1, 1) and its revenues
    not (10, 20). *)
Lemma two_orders_example_counterexample :
  let T := [order_line 101 7 (timestamp 2024 1 1 0 0 0) 10 "Youth";
            order_line 102 7 (timestamp 2024 1 3 0 0 0) 20 "Youth"] in
  List.length (create_daily_orders_df T) = 3%nat /\
  ~ (List.length (create_daily_orders_df T) = 2%nat /\
     map Daily.order_count (create_daily_orders_df T) = [1; 1] /\
     map Daily.revenue (create_daily_orders_df T) = [10; 20]).
Proof.
  intros T. split; [reflexivity|].
  intros (H & _). vm_compute in H. discriminate H.
Qed.

(** ** The date filter *)

Lemma main_df_spec (all_df : DataFrame) (start_date end_date : Z) (r : Row) :
  In r (main_df all_df start_date end_date) <->
  In r all_df /\ to_datetime start_date <= order_date r <= to_datetime end_date.
Proof.
  unfold main_df. rewrite filter_In, andb_true_iff, !Z.leb_le. tauto.
Qed.

(** No row dated outside the selected days gets through. *)
Lemma main_df_within_range (all_df : DataFrame) (start_date end_date : Z) (r : Row) :
  In r (main_df all_df start_date end_date) ->
  In r all_df /\ start_date <= day_of r <= end_date.
Proof.
  intros [Hr [Hlo Hhi]]%main_df_spec. split; [exact Hr|]. unfold day_of.
  apply dt_date_mono in Hlo, Hhi. rewrite dt_date_to_datetime in Hlo, Hhi. lia.
Qed.

(** Every row dated from the start day up to the eve of the end day gets
    through, and so does a row stamped at midnight of the end day. *)
Lemma main_df_keeps (all_df : DataFrame) (start_date end_date : Z) (r : Row) :
  In r all_df ->
  start_date <= day_of r ->
  day_of r < end_date \/ order_date r = to_datetime end_date ->
  In r (main_df all_df start_date end_date).
Proof.
  intros Hr Hlo Hhi. apply main_df_spec. split; [exact Hr|].
  unfold day_of, dt_date, to_datetime in *. pose proof ns_per_day_pos as Hpos.
  pose proof (Z.mul_div_le (order_date r) ns_per_day Hpos) as Hfloor.
  pose proof (Z.mod_pos_bound (order_date r) ns_per_day Hpos) as Hmod.
  pose proof (Z.div_mod (order_date r) ns_per_day) as Hdm.
  destruct Hhi as [Hhi|Hhi]; nia.
Qed.

(** On a table stamped with dates only (every timestamp at midnight) the
    filter keeps exactly the rows dated from the start day to the end day. *)
Lemma main_df_exact_on_dates (all_df : DataFrame) (start_date end_date : Z) (r : Row) :
  order_date r = to_datetime (day_of r) ->
  In r (main_df all_df start_date end_date) <->
  In r all_df /\ start_date <= day_of r <= end_date.
Proof.
  intros Hmid. split; [apply main_df_within_range|].
  intros [Hr [Hlo Hhi]]. apply main_df_keeps; [exact Hr | exact Hlo |].
  destruct (Z.eq_dec (day_of r) end_date) as [E|E]; [right; congruence | left; lia].
Qed.

(** C8 on the code: an order placed at 10:00 on the end day of the selected
    range is dated on that day and is left out by the filter, which compares
    its timestamp with midnight at the start of the end day. *)
Theorem filter_drops_orders_of_end_day :
  let first := order_line 1 7 (timestamp 2024 1 1 0 0 0) 10 "Youth" in
  let last := order_line 2 8 (timestamp 2024 1 3 10 0 0) 20 "Adults" in
  let start_date := days_from_civil 2024 1 1 in
  let end_date := days_from_civil 2024 1 3 in
  day_of last = end_date /\
  main_df [first; last] start_date end_date = [first].
Proof.
  intros first last start_date end_date. split; reflexivity.
Qed.

(** ** The aggregates and the filtered table *)

(** C4: the six aggregate tables are determined by the filtered table alone:
    two loaded tables and date ranges that leave the same rows after the
    filter yield the same aggregates, whatever rows lie outside the range. *)
Theorem aggregates_read_filtered_rows_only
        (all_df all_df' : DataFrame) (s e s' e' : Z) :
  main_df all_df s e = main_df all_df' s' e' ->
  prepare all_df s e = prepare all_df' s' e'.
Proof.
  intros H. unfold prepare. rewrite H. reflexivity.
Qed.

Lemma aggregates_read_filtered_rows_only_witness :
  let inside := [order_line 2 8 (timestamp 2024 1 2 0 0 0) 20 "Adults";
                 order_line 3 7 (timestamp 2024 1 3 0 0 0) 5 "Youth"] in
  let before := order_line 1 7 (timestamp 2024 1 1 0 0 0) 10 "Youth" in
  let after := order_line 4 9 (timestamp 2024 1 5 0 0 0) 40 "Seniors" in
  let s := days_from_civil 2024 1 2 in
  let e := days_from_civil 2024 1 3 in
  prepare (before :: inside ++ [after]) s e = prepare inside s e.
Proof.
  intros inside before after s e.
  apply (aggregates_read_filtered_rows_only (before :: inside ++ [after]) inside s e s e).
  reflexivity.
Defined.

(** ** Age groups *)

Lemma Categorical_in (cats : list string) (v c : string) :
  Categorical cats v = Some c -> c = v /\ In v cats.
Proof.
  unfold Categorical. destruct (in_dec string_dec v cats); [|discriminate].
  intros [= <-]. now split.
Qed.

Lemma Categorical_out (cats : list string) (v : string) :
  ~ In v cats -> Categorical cats v = None.
Proof.
  intros H. unfold Categorical.
  destruct (in_dec string_dec v cats); [contradiction | reflexivity].
Qed.

Lemma age_chart_labels_in_categories (df : DataFrame) (c : string) :
  In c (age_chart_labels (create_byage_df df)) -> In c age_categories.
Proof.
  unfold age_chart_labels, create_byage_df. cbn [ByAge.rows].
  rewrite in_flat_map. intros (row & Hrow & Hc).
  apply in_map_iff in Hrow as (g & <- & _). cbn [ByAge.age_group] in Hc.
  destruct (Categorical age_categories (fst g)) as [c'|] eqn:E; [|contradiction].
  destruct Hc as [<-|[]]. apply Categorical_in in E as [-> Hin]. exact Hin.
Qed.

(** C10: an age_group value of the table that is not exactly "Youth",
    "Adults" or "Seniors" gets a NaN category in the result of
    [create_byage_df]: its row, holding the number of distinct customers of
    the group, has no category, and no bar of the age chart is labelled with
    the value. *)
Theorem unknown_age_group_becomes_nan (T : DataFrame) (r : Row) :
  In r T ->
  ~ In (age_group r) ["Youth"; "Adults"; "Seniors"]%string ->
  In (ByAge.mk None
        (nunique (map customer_id
                      (filter (fun x => String.eqb (age_group x) (age_group r)) T))))
     (ByAge.rows (create_byage_df T)) /\
  ~ In (age_group r) (age_chart_labels (create_byage_df T)).
Proof.
  intros Hr Hout. split.
  - unfold create_byage_df, count_customers, groupby_string, groupby.
    cbn [ByAge.rows]. rewrite !map_map. cbn [fst snd].
    apply in_map_iff. exists (age_group r). split.
    + rewrite (Categorical_out age_categories _ Hout). do 3 f_equal.
      apply filter_ext. intros x. unfold has_key.
      destruct (string_dec (age_group x) (age_group r)) as [E|E].
      * symmetry; now apply String.eqb_eq.
      * symmetry; now apply String.eqb_neq.
    + apply in_group_keys. now exists r.
  - intros H. apply Hout. exact (age_chart_labels_in_categories T _ H).
Qed.

Lemma unknown_age_group_becomes_nan_witness :
  let kid := order_line 3 9 (timestamp 2024 1 2 0 0 0) 5 "youth" in
  let T := [order_line 1 7 (timestamp 2024 1 1 0 0 0) 10 "Youth";
            order_line 2 8 (timestamp 2024 1 1 0 0 0) 20 "Adults";
            kid;
            order_line 4 9 (timestamp 2024 1 3 0 0 0) 5 "youth"] in
  In (ByAge.mk None 1) (ByAge.rows (create_byage_df T)) /\
  ~ In "youth"%string (age_chart_labels (create_byage_df T)).
Proof.
  intros kid T.
  apply (unknown_age_group_becomes_nan T kid).
  - simpl; auto.
  - intros [H|[H|[H|[]]]]; discriminate H.
Defined.

(** C7 on the code: the age chart gets its bars in the order of the rows of
    [byage_df], which is the ascending order of the group keys; the category
    order given to [pd.Categorical] does not reorder the rows. *)
Theorem age_chart_follows_row_order :
  let T := [order_line 1 7 (timestamp 2024 1 1 0 0 0) 10 "Youth";
            order_line 2 8 (timestamp 2024 1 1 0 0 0) 20 "Adults";
            order_line 3 9 (timestamp 2024 1 2 0 0 0) 5 "Seniors"] in
  ByAge.categories (create_byage_df T) = ["Youth"; "Adults"; "Seniors"]%string /\
  age_chart_labels (create_byage_df T) = ["Adults"; "Seniors"; "Youth"]%string.
Proof.
  intros T. split; reflexivity.
Qed.

(** * Further properties of the pipeline *)

(** ** Sorted lists *)

Section SortedFacts.

Context {A : Type}.
Variable leb : A -> A -> bool.
Hypothesis leb_total : forall x y, leb x y = true \/ leb y x = true.
Hypothesis leb_trans : forall x y z, leb x y = true -> leb y z = true -> leb x z = true.

Let le (x y : A) : Prop := leb x y = true.

Lemma insert_sorted_sorted (x : A) (l : list A) :
  StronglySorted le l -> StronglySorted le (insert_sorted leb x l).
Proof.
  induction 1 as [|y t Hs IH Hall]; simpl.
  - constructor; constructor.
  - destruct (leb x y) eqn:E.
    + constructor; [now constructor|].
      constructor; [exact E|].
      apply Forall_impl with (P := le y); [|exact Hall].
      intros z Hz. exact (leb_trans x y z E Hz).
    + constructor; [exact IH|].
      apply (Permutation_Forall (insert_sorted_perm leb x t)).
      constructor; [|exact Hall].
      destruct (leb_total x y) as [H|H]; [congruence | exact H].
Qed.

Lemma sort_by_sorted (l : list A) : StronglySorted le (sort_by leb l).
Proof.
  induction l as [|x l IH]; simpl; [constructor|].
  now apply insert_sorted_sorted.
Qed.

Hypothesis leb_antisym : forall x y, leb x y = true -> leb y x = true -> x = y.

Lemma sorted_perm_eq (l l' : list A) :
  StronglySorted le l -> StronglySorted le l' -> Permutation l l' -> l = l'.
Proof.
  intros Hl; revert l'. induction Hl as [|a t Hs IH Ha]; intros l' Hl' Hp.
  - now apply Permutation_nil in Hp.
  - destruct Hl' as [|b t' Hs' Hb].
    + apply Permutation_sym, Permutation_nil in Hp; discriminate.
    + assert (a = b) as <-.
      { assert (Hin : In a (b :: t')) by (apply (Permutation_in _ Hp); now left).
        assert (Hin' : In b (a :: t))
          by (apply (Permutation_in _ (Permutation_sym Hp)); now left).
        destruct Hin as [E|Hin]; [now symmetry|].
        destruct Hin' as [E|Hin']; [exact E|].
        rewrite Forall_forall in Ha, Hb.
        apply leb_antisym; [now apply Ha | now apply Hb]. }
      f_equal. apply IH; [exact Hs'|]. now apply Permutation_cons_inv in Hp.
Qed.

Lemma sort_by_perm_eq (l l' : list A) :
  Permutation l l' -> sort_by leb l = sort_by leb l'.
Proof.
  intros Hp. apply sorted_perm_eq; try apply sort_by_sorted.
  rewrite <- (sort_by_perm leb l), <- (sort_by_perm leb l'). exact Hp.
Qed.

End SortedFacts.

Lemma StronglySorted_firstn_skipn {A : Type} (R : A -> A -> Prop) (n : nat)
      (l : list A) (x y : A) :
  StronglySorted R l -> In x (firstn n l) -> In y (skipn n l) -> R x y.
Proof.
  intros Hs; revert n. induction Hs as [|a t Hs IH Ha]; intros n Hx Hy.
  - destruct n; contradiction.
  - destruct n as [|n]; [contradiction|]. simpl in Hx, Hy.
    destruct Hx as [<-|Hx].
    + rewrite Forall_forall in Ha. apply Ha.
      rewrite <- (firstn_skipn n t). apply in_or_app; now right.
    + now apply (IH n).
Qed.

Lemma StronglySorted_filter {A : Type} (R : A -> A -> Prop) (f : A -> bool)
      (l : list A) :
  StronglySorted R l -> StronglySorted R (filter f l).
Proof.
  induction 1 as [|a t Hs IH Ha]; simpl; [constructor|].
  destruct (f a); [|exact IH]. constructor; [exact IH|].
  rewrite Forall_forall in *. intros x [Hx _]%filter_In. now apply Ha.
Qed.

Lemma StronglySorted_map {A B : Type} (R : B -> B -> Prop) (g : A -> B)
      (l : list A) :
  StronglySorted (fun a b => R (g a) (g b)) l -> StronglySorted R (map g l).
Proof.
  induction 1 as [|a t Hs IH Ha]; simpl; constructor; [exact IH|].
  rewrite Forall_forall in *. intros y (x & <- & Hx)%in_map_iff. now apply Ha.
Qed.

Lemma StronglySorted_strict {A : Type} (R : A -> A -> Prop) (l : list A) :
  NoDup l -> StronglySorted R l -> StronglySorted (fun a b => R a b /\ a <> b) l.
Proof.
  intros Hnd Hs. induction Hs as [|a t Hs IH Ha]; constructor.
  - apply IH. now inversion Hnd.
  - apply NoDup_cons_iff in Hnd as [Hnotin _].
    rewrite Forall_forall in *. intros x Hx. split; [now apply Ha|].
    intros ->. contradiction.
Qed.

(** ** The order of strings *)

Lemma ascii_compare_N (a b : Ascii.ascii) :
  Ascii.compare a b = N.compare (Ascii.N_of_ascii a) (Ascii.N_of_ascii b).
Proof. reflexivity. Qed.

Lemma string_leb_trans (s1 s2 s3 : string) :
  String.leb s1 s2 = true -> String.leb s2 s3 = true -> String.leb s1 s3 = true.
Proof.
  unfold String.leb. revert s2 s3.
  induction s1 as [|a s1 IH]; intros [|b s2] [|c s3]; simpl; try congruence.
  rewrite !ascii_compare_N.
  destruct (N.compare_spec (Ascii.N_of_ascii a) (Ascii.N_of_ascii b)) as [E1|L1|G1];
    destruct (N.compare_spec (Ascii.N_of_ascii b) (Ascii.N_of_ascii c)) as [E2|L2|G2];
    destruct (N.compare_spec (Ascii.N_of_ascii a) (Ascii.N_of_ascii c)) as [E3|L3|G3];
    try congruence; try lia; try apply IH.
Qed.

Lemma string_ltb_leb_neq (a b : string) :
  String.leb a b = true -> a <> b -> String.ltb a b = true.
Proof.
  unfold String.leb, String.ltb. intros H Hne.
  destruct (String.compare a b) eqn:E; try congruence.
  apply String.compare_eq_iff in E. contradiction.
Qed.

Lemma Z_leb_trans (x y z : Z) : (x <=? y) = true -> (y <=? z) = true -> (x <=? z) = true.
Proof. rewrite !Z.leb_le; lia. Qed.

Lemma Z_leb_total (x y : Z) : (x <=? y) = true \/ (y <=? x) = true.
Proof. rewrite !Z.leb_le; lia. Qed.

Lemma Z_leb_antisym (x y : Z) : (x <=? y) = true -> (y <=? x) = true -> x = y.
Proof. rewrite !Z.leb_le; lia. Qed.

(** ** Distinct values, group by group *)

Lemma nunique_perm (l l' : list Z) : Permutation l l' -> nunique l = nunique l'.
Proof.
  intros Hp. unfold nunique. f_equal. apply Permutation_length.
  apply NoDup_Permutation; try apply NoDup_nodup.
  intros x. rewrite !nodup_In. split; apply Permutation_in; [|symmetry]; exact Hp.
Qed.

Lemma filter_perm {A : Type} (f : A -> bool) (l l' : list A) :
  Permutation l l' -> Permutation (filter f l) (filter f l').
Proof.
  induction 1 as [|x l l' Hp IH|x y l|l l' l'' H1 IH1 H2 IH2]; simpl.
  - constructor.
  - destruct (f x); [now constructor | exact IH].
  - destruct (f x), (f y); try reflexivity. apply perm_swap.
  - now transitivity (filter f l').
Qed.

Lemma sum_of_lengths {K : Type} (F : K -> list Z) (ks : list K) :
  series_sum (map (fun k => Z.of_nat (List.length (F k))) ks)
  = Z.of_nat (List.length (flat_map F ks)).
Proof.
  induction ks as [|k ks IH]; simpl; [reflexivity|].
  rewrite length_app, IH. lia.
Qed.

Section DistinctByGroups.

Context {K : Type}.
Variable eq_dec : forall x y : K, {x = y} + {x <> y}.
Variable key : Row -> K.
Variable val : Row -> Z.

Let distinct_in (df : DataFrame) (k : K) : list Z :=
  nodup Z.eq_dec (map val (filter (has_key eq_dec key k) df)).

Lemma in_distinct_groups (ks : list K) (df : DataFrame) (x : Z) :
  In x (flat_map (distinct_in df) ks) <->
  exists r, In r df /\ val r = x /\ In (key r) ks.
Proof.
  rewrite in_flat_map. unfold distinct_in. split.
  - intros (k & Hk & Hx). apply nodup_In, in_map_iff in Hx.
    destruct Hx as (r & Hv & [Hr Hkey]%filter_In).
    apply has_key_true in Hkey. exists r. subst k. auto.
  - intros (r & Hr & Hv & Hk). exists (key r). split; [exact Hk|].
    apply nodup_In, in_map_iff. exists r. split; [exact Hv|].
    apply filter_In. split; [exact Hr | now apply has_key_true].
Qed.

(** Counting distinct values inside each group never undercounts. *)
Lemma nunique_by_groups_ge (ks : list K) (df : DataFrame) :
  (forall r, In r df -> In (key r) ks) ->
  nunique (map val df)
  <= series_sum (map (fun k => nunique (map val (filter (has_key eq_dec key k) df))) ks).
Proof.
  intros Hcov. unfold nunique.
  rewrite (sum_of_lengths
             (fun k => nodup Z.eq_dec (map val (filter (has_key eq_dec key k) df))) ks).
  change (fun k => nodup Z.eq_dec (map val (filter (has_key eq_dec key k) df)))
    with (distinct_in df).
  apply inj_le, NoDup_incl_length; [apply NoDup_nodup|].
  intros x Hx. apply nodup_In, in_map_iff in Hx. destruct Hx as (r & Hv & Hr).
  apply in_distinct_groups. exists r. auto.
Qed.

(** It is exact when a value never occurs under two keys. *)
Lemma nunique_by_groups_eq (ks : list K) (df : DataFrame) :
  NoDup ks ->
  (forall r, In r df -> In (key r) ks) ->
  (forall r1 r2, In r1 df -> In r2 df -> val r1 = val r2 -> key r1 = key r2) ->
  series_sum (map (fun k => nunique (map val (filter (has_key eq_dec key k) df))) ks)
  = nunique (map val df).
Proof.
  intros Hnd Hcov Hfd. unfold nunique.
  rewrite (sum_of_lengths
             (fun k => nodup Z.eq_dec (map val (filter (has_key eq_dec key k) df))) ks).
  change (fun k => nodup Z.eq_dec (map val (filter (has_key eq_dec key k) df)))
    with (distinct_in df).
  f_equal. apply Permutation_length, NoDup_Permutation.
  - clear Hcov. induction Hnd as [|k ks Hk Hnd IH]; simpl; [constructor|].
    apply NoDup_app; [apply NoDup_nodup | exact IH |].
    intros x H1 H2. unfold distinct_in in H1.
    apply nodup_In, in_map_iff in H1.
    destruct H1 as (r1 & Hv1 & [Hr1 Hk1%has_key_true]%filter_In).
    apply in_distinct_groups in H2 as (r2 & Hr2 & Hv2 & Hk2).
    apply Hk. rewrite <- Hk1, (Hfd r1 r2 Hr1 Hr2); [exact Hk2 | congruence].
  - apply NoDup_nodup.
  - intros x. rewrite in_distinct_groups, nodup_In, in_map_iff. split.
    + intros (r & Hr & Hv & _). eauto.
    + intros (r & Hv & Hr). exists r. auto.
Qed.

End DistinctByGroups.

Lemma has_key_Z_eqb (key : Row -> Z) (k : Z) (df : DataFrame) :
  filter (has_key Z.eq_dec key k) df = filter (fun r => key r =? k) df.
Proof.
  apply filter_ext. intros r. unfold has_key.
  destruct (Z.eq_dec (key r) k) as [E|E]; symmetry;
    [now apply Z.eqb_eq | now apply Z.eqb_neq].
Qed.

Lemma day_in_range (df : DataFrame) (lo hi : Z) (r : Row) :
  is_earliest_day lo df = true -> is_latest_day hi df = true ->
  In r df -> In (dt_date (order_date r)) (date_range lo hi).
Proof.
  intros [_ Hlo]%is_earliest_day_spec [_ Hhi]%is_latest_day_spec Hr.
  apply in_date_range. split; [exact (Hlo r Hr) | exact (Hhi r Hr)].
Qed.

(** ** More on the daily-orders table *)

(** X1: the revenue column of the daily-orders table adds up to the sum of
    total_price over the table it was computed from; the "Total Revenue"
    metric is the revenue of the filtered table. *)
Theorem daily_revenue_total (T : DataFrame) :
  series_sum (map Daily.revenue (create_daily_orders_df T))
  = series_sum (map total_price T).
Proof.
  destruct (create_daily_orders_df_cases T) as [->|(lo & hi & Hlo & Hhi)];
    [reflexivity|].
  rewrite (create_daily_orders_df_bins T lo hi Hlo Hhi), map_map.
  cbn [daily_bin Daily.revenue].
  rewrite <- (sum_by_keys Z.eq_dec Z.leb (fun r => dt_date (order_date r)) total_price
                (date_range lo hi) T (NoDup_date_range lo hi)).
  - f_equal. apply map_ext. intros d. now rewrite has_key_Z_eqb.
  - intros r Hr. exact (day_in_range T lo hi r Hlo Hhi Hr).
Qed.

(** X2: the "Total Orders" metric, the sum of the daily distinct counts,
    is never below the number of distinct order ids of the table. *)
Theorem daily_order_counts_lower_bound (T : DataFrame) :
  nunique (map order_id T) <= total_orders (create_daily_orders_df T).
Proof.
  destruct (create_daily_orders_df_cases T) as [->|(lo & hi & Hlo & Hhi)];
    [vm_compute; discriminate|].
  unfold total_orders.
  rewrite (create_daily_orders_df_bins T lo hi Hlo Hhi), map_map.
  cbn [daily_bin Daily.order_count].
  transitivity
    (series_sum
       (map (fun k => nunique (map order_id
                                 (filter (has_key Z.eq_dec
                                            (fun r => dt_date (order_date r)) k) T)))
            (date_range lo hi))).
  - apply nunique_by_groups_ge.
    intros r Hr. exact (day_in_range T lo hi r Hlo Hhi Hr).
  - apply Z.eq_le_incl. f_equal. apply map_ext. intros d. now rewrite has_key_Z_eqb.
Qed.

(** X3: the rows of the daily-orders table come in strictly ascending
    order of their date. *)
Theorem daily_orders_ascending (T : DataFrame) :
  StronglySorted Z.lt (map Daily.order_date (create_daily_orders_df T)).
Proof.
  destruct (create_daily_orders_df_cases T) as [->|(lo & hi & Hlo & Hhi)];
    [constructor|].
  rewrite (create_daily_orders_df_bins T lo hi Hlo Hhi), map_map.
  cbn [daily_bin Daily.order_date]. unfold date_range. rewrite map_map.
  generalize (Z.to_nat (hi - lo + 1)) as n. generalize 0%nat as s.
  intros s n; revert s. induction n as [|n IH]; intros s; simpl; constructor.
  - apply IH.
  - apply Forall_forall. intros x (i & <- & Hi%in_seq)%in_map_iff.
    unfold to_datetime. pose proof ns_per_day_pos. nia.
Qed.

(** ** More on the product-volume table *)

Lemma StronglySorted_weaken {A : Type} (R R' : A -> A -> Prop) (l : list A) :
  (forall a b, R a b -> R' a b) -> StronglySorted R l -> StronglySorted R' l.
Proof.
  intros Himp. induction 1 as [|a t Hs IH Ha]; constructor; [exact IH|].
  apply Forall_impl with (P := R a); [apply Himp | exact Ha].
Qed.

Lemma filter_keys_unique {B : Type} (G : string -> B) (proj : B -> string)
      (ks : list string) (c : string) :
  (forall k, proj (G k) = k) ->
  NoDup ks -> In c ks ->
  filter (fun x => String.eqb (proj x) c) (map G ks) = [G c].
Proof.
  intros Hproj Hnd Hc.
  induction Hnd as [|k ks Hk Hnd IH]; [contradiction|].
  simpl. rewrite Hproj. destruct (String.eqb_spec k c) as [E|E].
  - subst k. f_equal.
    apply filter_none. intros x (k & <- & Hin)%in_map_iff.
    rewrite Hproj. apply String.eqb_neq. congruence.
  - destruct Hc as [->|Hc]; [congruence|]. now apply IH.
Qed.

Lemma has_key_string_eqb (key : Row -> string) (k : string) (df : DataFrame) :
  filter (has_key string_dec key k) df = filter (fun r => String.eqb (key r) k) df.
Proof.
  apply filter_ext. intros r. unfold has_key.
  destruct (string_dec (key r) k) as [E|E]; symmetry;
    [now apply String.eqb_eq | now apply String.eqb_neq].
Qed.

(** X4: the product-volume table has exactly one row for each product
    name of the table, holding the summed quantity of that product's lines,
    and no row for a name that is not in the table. *)
Theorem product_volume_one_row_per_product (T : DataFrame) :
  (forall r, In r T ->
     filter (fun x => String.eqb (fst x) (product_name r))
            (create_sum_order_items_df T)
     = [(product_name r,
         series_sum (map quantity_x
                         (filter (fun x => String.eqb (product_name x) (product_name r))
                                 T)))]) /\
  (forall row, In row (create_sum_order_items_df T) ->
     exists r, In r T /\ product_name r = fst row).
Proof.
  unfold create_sum_order_items_df, groupby_string, groupby.
  rewrite map_map. cbn [fst snd]. split.
  - intros r Hr. rewrite <- has_key_string_eqb.
    apply Permutation_length_1_inv.
    eapply Permutation_trans; [|apply filter_perm, sort_by_perm].
    rewrite (filter_keys_unique
               (fun k => (k, series_sum (map quantity_x
                                             (filter (has_key string_dec product_name k) T))))
               fst).
    + reflexivity.
    + reflexivity.
    + apply NoDup_group_keys.
    + apply in_group_keys. now exists r.
  - intros row Hrow.
    apply (Permutation_in _ (Permutation_sym (sort_by_perm _ _))) in Hrow.
    apply in_map_iff in Hrow as (k & <- & Hk). cbn [fst].
    now apply in_group_keys in Hk.
Qed.

Lemma sum_order_items_sorted (df : DataFrame) :
  StronglySorted (fun a b => snd b <= snd a) (create_sum_order_items_df df).
Proof.
  unfold create_sum_order_items_df.
  apply StronglySorted_weaken
    with (R := fun a b : string * Z => (snd b <=? snd a) = true).
  - intros a b H. now apply Z.leb_le.
  - apply (sort_by_sorted (fun a b : string * Z => snd b <=? snd a)).
    + intros x y. apply Z_leb_total.
    + intros x y z H1 H2. exact (Z_leb_trans _ _ _ H2 H1).
Qed.

(** X5: the product-volume table is in descending order of quantity. *)
Theorem product_volume_descending (T : DataFrame) :
  StronglySorted (fun a b => snd b <= snd a) (create_sum_order_items_df T).
Proof. exact (sum_order_items_sorted T). Qed.

(** X6: no product left out of the "best performing" chart sold more than
    a product shown in it. *)
Theorem best_product_dominates (T : DataFrame) (x y : string * Z) :
  In x (best_product (create_sum_order_items_df T)) ->
  In y (create_sum_order_items_df T) ->
  ~ In y (best_product (create_sum_order_items_df T)) ->
  snd y <= snd x.
Proof.
  unfold best_product. intros Hx Hy Hny.
  rewrite <- (firstn_skipn 5 (create_sum_order_items_df T)) in Hy.
  apply in_app_or in Hy as [Hy|Hy]; [contradiction|].
  exact (StronglySorted_firstn_skipn _ 5 _ x y (sum_order_items_sorted T) Hx Hy).
Qed.

Lemma worst_product_sorted (t : list (string * Z)) :
  StronglySorted (fun a b => snd a <= snd b)
                 (sort_by (fun a b => snd a <=? snd b) t).
Proof.
  apply StronglySorted_weaken
    with (R := fun a b : string * Z => (snd a <=? snd b) = true).
  - intros a b H. now apply Z.leb_le.
  - apply (sort_by_sorted (fun a b : string * Z => snd a <=? snd b)).
    + intros x y. apply Z_leb_total.
    + intros x y z. apply Z_leb_trans.
Qed.

(** X7: no product left out of the "worst performing" chart sold less than
    a product shown in it. *)
Theorem worst_product_dominated (T : DataFrame) (x y : string * Z) :
  In x (worst_product (create_sum_order_items_df T)) ->
  In y (create_sum_order_items_df T) ->
  ~ In y (worst_product (create_sum_order_items_df T)) ->
  snd x <= snd y.
Proof.
  unfold worst_product. intros Hx Hy Hny.
  apply (Permutation_in _ (sort_by_perm (fun a b => snd a <=? snd b) _)) in Hy.
  rewrite <- (firstn_skipn 5 (sort_by _ (create_sum_order_items_df T))) in Hy.
  apply in_app_or in Hy as [Hy|Hy]; [contradiction|].
  exact (StronglySorted_firstn_skipn _ 5 _ x y (worst_product_sorted _) Hx Hy).
Qed.

Lemma product_volume_one_row_per_product_witness :
  let T := [item_line 1 7 0 "Hoodie" 2 40 "Female" "Youth" "Victoria";
            item_line 1 7 0 "Cap" 1 10 "Female" "Youth" "Victoria";
            item_line 2 8 0 "Hoodie" 3 60 "Male" "Adults" "Tasmania"] in
  filter (fun x => String.eqb (fst x) "Hoodie") (create_sum_order_items_df T)
  = [("Hoodie"%string, 5)].
Proof.
  intros T.
  exact (proj1 (product_volume_one_row_per_product T)
               (item_line 2 8 0 "Hoodie" 3 60 "Male" "Adults" "Tasmania")
               (or_intror (or_intror (or_introl eq_refl)))).
Defined.

Lemma best_product_dominates_witness :
  let T := [item_line 1 7 0 "A" 6 1 "Female" "Youth" "Victoria";
            item_line 2 7 0 "B" 5 1 "Female" "Youth" "Victoria";
            item_line 3 7 0 "C" 4 1 "Female" "Youth" "Victoria";
            item_line 4 7 0 "D" 3 1 "Female" "Youth" "Victoria";
            item_line 5 7 0 "E" 2 1 "Female" "Youth" "Victoria";
            item_line 6 7 0 "F" 1 1 "Female" "Youth" "Victoria";
            item_line 7 8 0 "F" 1 1 "Male" "Adults" "Tasmania"] in
  snd ("F"%string, 2) <= snd ("E"%string, 2).
Proof.
  intros T.
  apply (best_product_dominates T ("E"%string, 2) ("F"%string, 2)).
  - vm_compute. intuition.
  - vm_compute. intuition.
  - vm_compute. intuition discriminate.
Defined.

Lemma worst_product_dominated_witness :
  let T := [item_line 1 7 0 "A" 6 1 "Female" "Youth" "Victoria";
            item_line 2 7 0 "B" 5 1 "Female" "Youth" "Victoria";
            item_line 3 7 0 "C" 4 1 "Female" "Youth" "Victoria";
            item_line 4 7 0 "D" 3 1 "Female" "Youth" "Victoria";
            item_line 5 7 0 "E" 2 1 "Female" "Youth" "Victoria";
            item_line 6 7 0 "F" 1 1 "Female" "Youth" "Victoria"] in
  snd ("B"%string, 5) <= snd ("A"%string, 6).
Proof.
  intros T.
  apply (worst_product_dominated T ("B"%string, 5) ("A"%string, 6)).
  - vm_compute. intuition.
  - vm_compute. intuition.
  - vm_compute. intuition discriminate.
Defined.

(** ** Customers by gender, age group and state *)

Lemma one_value_per_customer_spec (col : Row -> string) (df : DataFrame) :
  one_value_per_customer col df = true <->
  forall r1 r2, In r1 df -> In r2 df ->
                customer_id r1 = customer_id r2 -> col r1 = col r2.
Proof.
  unfold one_value_per_customer. rewrite forallb_forall. split.
  - intros H r1 r2 H1 H2 Heq.
    specialize (H r1 H1). rewrite forallb_forall in H. specialize (H r2 H2).
    apply Z.eqb_eq in Heq. rewrite Heq in H. now apply String.eqb_eq.
  - intros H r1 H1. apply forallb_forall. intros r2 H2.
    destruct (customer_id r1 =? customer_id r2) eqn:E; [|reflexivity].
    simpl. apply String.eqb_eq, H; auto. now apply Z.eqb_eq.
Qed.

Lemma nunique_pos (l : list Z) : l <> [] -> 1 <= nunique l.
Proof.
  destruct l as [|x l]; [congruence|]. intros _. unfold nunique.
  assert (Hin : In x (nodup Z.eq_dec (x :: l))) by (apply nodup_In; now left).
  destruct (nodup Z.eq_dec (x :: l)); [contradiction | simpl; lia].
Qed.

Lemma group_keys_ascending (key : Row -> string) (df : DataFrame) :
  StronglySorted (fun a b => String.ltb a b = true)
                 (group_keys string_dec String.leb key df).
Proof.
  apply StronglySorted_weaken
    with (R := fun a b => String.leb a b = true /\ a <> b).
  - intros a b [H Hne]. now apply string_ltb_leb_neq.
  - apply StronglySorted_strict; [apply NoDup_group_keys|].
    unfold group_keys.
    apply (sort_by_sorted String.leb String.leb_total string_leb_trans).
Qed.

Section Breakdown.

Variable col : Row -> string.

Lemma breakdown_total (df : DataFrame) :
  one_value_per_customer col df = true ->
  series_sum (map snd (count_customers (groupby_string col df)))
  = nunique (map customer_id df).
Proof.
  intros Hone. rewrite one_value_per_customer_spec in Hone.
  unfold count_customers, groupby_string, groupby. rewrite !map_map. cbn [fst snd].
  apply (nunique_by_groups_eq string_dec col customer_id).
  - apply NoDup_group_keys.
  - intros r Hr. apply in_group_keys. now exists r.
  - exact Hone.
Qed.

Lemma breakdown_lower_bound (df : DataFrame) :
  nunique (map customer_id df)
  <= series_sum (map snd (count_customers (groupby_string col df))).
Proof.
  unfold count_customers, groupby_string, groupby. rewrite !map_map. cbn [fst snd].
  apply (nunique_by_groups_ge string_dec col customer_id).
  intros r Hr. apply in_group_keys. now exists r.
Qed.

Lemma breakdown_rows (df : DataFrame) :
  StronglySorted (fun a b => String.ltb (fst a) (fst b) = true)
                 (count_customers (groupby_string col df)) /\
  (forall row, In row (count_customers (groupby_string col df)) ->
     (exists r, In r df /\ col r = fst row) /\ 1 <= snd row).
Proof.
  unfold count_customers, groupby_string, groupby. rewrite !map_map. cbn [fst snd].
  split.
  - pose proof (group_keys_ascending col df) as Hs.
    induction Hs as [|k ks Hs IH Hk]; simpl; constructor; [exact IH|].
    rewrite Forall_forall in *. intros x (k' & <- & Hk')%in_map_iff. now apply Hk.
  - intros row (k & <- & Hk)%in_map_iff. cbn [fst snd].
    apply in_group_keys in Hk. split; [exact Hk|].
    destruct Hk as (r & Hr & Hkey). apply nunique_pos. intros Hnil.
    apply map_eq_nil in Hnil.
    assert (Hin : In r (filter (has_key string_dec col k) df))
      by (apply filter_In; split; [exact Hr | now apply has_key_true]).
    rewrite Hnil in Hin. exact Hin.
Qed.

End Breakdown.

(** X8: when no customer is recorded with two genders, the customer counts
    of the gender table add up to the number of distinct customers. *)
Theorem gender_counts_total (T : DataFrame) :
  one_value_per_customer gender T = true ->
  series_sum (map snd (create_bygender_df T)) = nunique (map customer_id T).
Proof. apply breakdown_total. Qed.

Lemma gender_counts_total_witness :
  let T := [item_line 1 7 0 "Cap" 1 10 "Female" "Youth" "Victoria";
            item_line 2 7 0 "Hoodie" 1 40 "Female" "Youth" "Victoria";
            item_line 3 8 0 "Cap" 2 20 "Male" "Adults" "Tasmania";
            item_line 4 9 0 "Cap" 1 10 "Female" "Seniors" "Tasmania"] in
  series_sum (map snd (create_bygender_df T)) = 3.
Proof.
  intros T. exact (gender_counts_total T eq_refl).
Defined.

(** X9: when no customer is recorded in two states, the customer counts of
    the state table add up to the number of distinct customers. *)
Theorem state_counts_total (T : DataFrame) :
  one_value_per_customer state T = true ->
  series_sum (map snd (create_bystate_df T)) = nunique (map customer_id T).
Proof. apply breakdown_total. Qed.

Lemma state_counts_total_witness :
  let T := [item_line 1 7 0 "Cap" 1 10 "Female" "Youth" "Victoria";
            item_line 2 7 0 "Hoodie" 1 40 "Female" "Youth" "Victoria";
            item_line 3 8 0 "Cap" 2 20 "Male" "Adults" "Tasmania";
            item_line 4 9 0 "Cap" 1 10 "Female" "Seniors" "Tasmania"] in
  series_sum (map snd (create_bystate_df T)) = 3.
Proof.
  intros T. exact (state_counts_total T eq_refl).
Defined.

(** X10: when no customer is recorded in two age groups, the customer
    counts of the age table, the rows without a category included, add up to
    the number of distinct customers. *)
Theorem age_counts_total (T : DataFrame) :
  one_value_per_customer age_group T = true ->
  series_sum (map ByAge.customer_count (ByAge.rows (create_byage_df T)))
  = nunique (map customer_id T).
Proof.
  intros H. unfold create_byage_df. cbn [ByAge.rows].
  rewrite map_map. cbn [ByAge.customer_count].
  exact (breakdown_total age_group T H).
Qed.

Lemma age_counts_total_witness :
  let T := [item_line 1 7 0 "Cap" 1 10 "Female" "Youth" "Victoria";
            item_line 2 7 0 "Hoodie" 1 40 "Female" "Youth" "Victoria";
            item_line 3 8 0 "Cap" 2 20 "Male" "Teens" "Tasmania";
            item_line 4 9 0 "Cap" 1 10 "Female" "Seniors" "Tasmania"] in
  series_sum (map ByAge.customer_count (ByAge.rows (create_byage_df T))) = 3.
Proof.
  intros T. exact (age_counts_total T eq_refl).
Defined.

(** X11: in each of the three breakdowns the customer counts add up to at
    least the number of distinct customers; a customer recorded under two
    values of the dimension is counted under both. *)
Theorem breakdown_counts_lower_bound (T : DataFrame) :
  nunique (map customer_id T) <= series_sum (map snd (create_bygender_df T)) /\
  nunique (map customer_id T)
  <= series_sum (map ByAge.customer_count (ByAge.rows (create_byage_df T))) /\
  nunique (map customer_id T) <= series_sum (map snd (create_bystate_df T)).
Proof.
  repeat split; try apply breakdown_lower_bound.
  unfold create_byage_df. cbn [ByAge.rows]. rewrite map_map.
  cbn [ByAge.customer_count]. apply (breakdown_lower_bound age_group).
Qed.

(** X12: the gender table and the state table have their rows in strictly
    ascending order of the dimension, and every row stands for a value that
    occurs in the table and counts at least one customer. *)
Theorem gender_state_rows (T : DataFrame) :
  (StronglySorted (fun a b => String.ltb (fst a) (fst b) = true)
                  (create_bygender_df T) /\
   forall row, In row (create_bygender_df T) ->
     (exists r, In r T /\ gender r = fst row) /\ 1 <= snd row) /\
  (StronglySorted (fun a b => String.ltb (fst a) (fst b) = true)
                  (create_bystate_df T) /\
   forall row, In row (create_bystate_df T) ->
     (exists r, In r T /\ state r = fst row) /\ 1 <= snd row).
Proof.
  split; apply breakdown_rows.
Qed.

(** X13: whatever the order of the input rows, the labelled bars of the
    age chart come in strictly ascending alphabetical order of their labels,
    and every label is one of the three categories. *)
Theorem age_chart_labels_alphabetical (T : DataFrame) :
  StronglySorted (fun a b => String.ltb a b = true)
                 (age_chart_labels (create_byage_df T)) /\
  incl (age_chart_labels (create_byage_df T)) ["Youth"; "Adults"; "Seniors"]%string.
Proof.
  split.
  - unfold age_chart_labels, create_byage_df, count_customers, groupby_string, groupby.
    cbn [ByAge.rows]. rewrite !map_map. cbn [fst snd].
    pose proof (group_keys_ascending age_group T) as Hs.
    induction Hs as [|k ks Hs IH Hk]; simpl; [constructor|].
    unfold Categorical at 1.
    destruct (in_dec string_dec k age_categories) as [_|_]; simpl; [|exact IH].
    constructor; [exact IH|].
    rewrite Forall_forall in *. intros x Hx. apply Hk.
    apply in_flat_map in Hx as (row & (k' & <- & Hk')%in_map_iff & Hx).
    cbn [ByAge.age_group] in Hx.
    destruct (Categorical age_categories k') as [c|] eqn:E; [|contradiction].
    destruct Hx as [<-|[]]. apply Categorical_in in E as [-> _]. exact Hk'.
  - intros c Hc. unfold age_chart_labels in Hc.
    apply in_flat_map in Hc as (row & Hrow & Hc).
    unfold create_byage_df in Hrow. cbn [ByAge.rows] in Hrow.
    apply in_map_iff in Hrow as (g & <- & _). cbn [ByAge.age_group] in Hc.
    destruct (Categorical age_categories (fst g)) as [c'|] eqn:E; [|contradiction].
    destruct Hc as [<-|[]]. apply Categorical_in in E as [-> Hin]. exact Hin.
Qed.

(** ** More on the RFM table *)

Lemma create_rfm_df_cases (df : DataFrame) :
  df = [] \/
  exists hi, is_latest_day hi df = true /\
             create_rfm_df df
             = map (rfm_row df hi) (group_keys Z.eq_dec Z.leb customer_id df).
Proof.
  destruct df as [|r df]; [now left|right].
  unfold create_rfm_df.
  destruct (series_max (map (fun r => dt_date (order_date r)) (r :: df)))
    as [m|] eqn:E; [|discriminate E].
  exists m. split; [now apply latest_of_days|].
  unfold groupby_Z, groupby. now rewrite map_map.
Qed.

Lemma one_customer_per_order_spec (df : DataFrame) :
  one_customer_per_order df = true <->
  forall r1 r2, In r1 df -> In r2 df ->
                order_id r1 = order_id r2 -> customer_id r1 = customer_id r2.
Proof.
  unfold one_customer_per_order. rewrite forallb_forall. split.
  - intros H r1 r2 H1 H2 Heq.
    specialize (H r1 H1). rewrite forallb_forall in H. specialize (H r2 H2).
    apply Z.eqb_eq in Heq. rewrite Heq in H. now apply Z.eqb_eq.
  - intros H r1 H1. apply forallb_forall. intros r2 H2.
    destruct (order_id r1 =? order_id r2) eqn:E; [|reflexivity].
    simpl. apply Z.eqb_eq, H; auto. now apply Z.eqb_eq.
Qed.

Lemma customer_keys_cover (df : DataFrame) (r : Row) :
  In r df -> In (customer_id r) (group_keys Z.eq_dec Z.leb customer_id df).
Proof. intros Hr. apply in_group_keys. now exists r. Qed.

(** X14: the monetary column of the RFM table adds up to the sum of
    total_price over the table. *)
Theorem rfm_monetary_total (T : DataFrame) :
  series_sum (map Rfm.monetary (create_rfm_df T)) = series_sum (map total_price T).
Proof.
  destruct (create_rfm_df_cases T) as [->|(hi & _ & ->)]; [reflexivity|].
  rewrite map_map. cbn [rfm_row Rfm.monetary].
  apply (sum_by_keys Z.eq_dec Z.leb customer_id total_price).
  - apply NoDup_group_keys.
  - apply customer_keys_cover.
Qed.

(** X15: when every order belongs to one customer, the frequency column of
    the RFM table adds up to the number of distinct order ids of the table. *)
Theorem rfm_frequency_total (T : DataFrame) :
  one_customer_per_order T = true ->
  series_sum (map Rfm.frequency (create_rfm_df T)) = nunique (map order_id T).
Proof.
  intros Hone. rewrite one_customer_per_order_spec in Hone.
  destruct (create_rfm_df_cases T) as [->|(hi & _ & ->)]; [reflexivity|].
  rewrite map_map. cbn [rfm_row Rfm.frequency].
  apply (nunique_by_groups_eq Z.eq_dec customer_id order_id).
  - apply NoDup_group_keys.
  - apply customer_keys_cover.
  - exact Hone.
Qed.

Lemma rfm_frequency_total_witness :
  let T := [order_line 1 7 (timestamp 2024 1 1 9 30 0) 10 "Youth";
            order_line 1 7 (timestamp 2024 1 1 9 30 0) 15 "Youth";
            order_line 2 8 (timestamp 2024 1 2 12 0 0) 20 "Adults";
            order_line 3 7 (timestamp 2024 1 4 8 0 0) 5 "Youth"] in
  series_sum (map Rfm.frequency (create_rfm_df T)) = 3.
Proof.
  intros T. exact (rfm_frequency_total T eq_refl).
Defined.

(** X16: every row of the RFM table has a recency of at least 0 days and a
    frequency of at least 1 order. *)
Theorem rfm_recency_nonneg_frequency_pos (T : DataFrame) (row : Rfm.row) :
  In row (create_rfm_df T) ->
  0 <= Rfm.recency row /\ 1 <= Rfm.frequency row.
Proof.
  destruct (create_rfm_df_cases T) as [->|(hi & Hhi & ->)]; [intros []|].
  intros (k & <- & Hk)%in_map_iff. cbn [rfm_row Rfm.recency Rfm.frequency].
  apply in_group_keys in Hk as (r & Hr & Hkey).
  assert (Hin : In r (filter (has_key Z.eq_dec customer_id k) T))
    by (apply filter_In; split; [exact Hr | now apply has_key_true]).
  set (g := filter (has_key Z.eq_dec customer_id k) T) in *.
  assert (Hg : g <> []) by (intros E; rewrite E in Hin; exact Hin).
  split.
  - destruct (series_max_some (map order_date g)) as [ts Hts].
    { intros E. apply map_eq_nil in E. contradiction. }
    unfold max_order_timestamp. rewrite Hts.
    apply latest_timestamp_day, is_latest_day_spec in Hts as [(r' & Hr' & Hd) _].
    apply is_latest_day_spec in Hhi as [_ Hhi].
    assert (Hle : day_of r' <= hi).
    { apply Hhi. unfold g in Hr'. now apply filter_In in Hr'. }
    unfold day_of in Hd, Hle. lia.
  - apply nunique_pos. intros E. apply map_eq_nil in E. contradiction.
Qed.

Lemma rfm_recency_nonneg_frequency_pos_witness :
  let T := [order_line 1 7 (timestamp 2024 1 1 9 30 0) 10 "Youth";
            order_line 2 8 (timestamp 2024 1 2 12 0 0) 20 "Adults"] in
  0 <= Rfm.recency (Rfm.mk 7 1 10 1) /\ 1 <= Rfm.frequency (Rfm.mk 7 1 10 1).
Proof.
  intros T.
  apply (rfm_recency_nonneg_frequency_pos T (Rfm.mk 7 1 10 1)).
  vm_compute. auto.
Defined.

(** X17: the RFM table lists the customers of the table in strictly
    ascending order of customer id, each of them once and no one else. *)
Theorem rfm_customers_ascending (T : DataFrame) :
  StronglySorted Z.lt (map Rfm.customer_id (create_rfm_df T)) /\
  forall c, In c (map Rfm.customer_id (create_rfm_df T)) <->
            exists r, In r T /\ customer_id r = c.
Proof.
  destruct (create_rfm_df_cases T) as [->|(hi & _ & ->)].
  - split; [constructor|]. intros c. split; [intros [] | intros (r & [] & _)].
  - rewrite map_map. cbn [rfm_row Rfm.customer_id]. rewrite map_id. split.
    + apply StronglySorted_weaken
        with (R := fun a b => (a <=? b) = true /\ a <> b).
      * intros a b [H%Z.leb_le Hne]. lia.
      * apply StronglySorted_strict; [apply NoDup_group_keys|].
        unfold group_keys. apply (sort_by_sorted Z.leb Z_leb_total Z_leb_trans).
    + intros c. apply in_group_keys.
Qed.

(** ** The order of the rows does not matter *)

Lemma is_latest_day_perm (d : Z) (df df' : DataFrame) :
  Permutation df df' -> is_latest_day d df = true -> is_latest_day d df' = true.
Proof.
  intros Hp [(r & Hr & Hd) Hle]%is_latest_day_spec. apply is_latest_day_spec. split.
  - exists r. split; [exact (Permutation_in _ Hp Hr) | exact Hd].
  - intros r' Hr'. apply Hle. exact (Permutation_in _ (Permutation_sym Hp) Hr').
Qed.

Lemma is_earliest_day_perm (d : Z) (df df' : DataFrame) :
  Permutation df df' -> is_earliest_day d df = true -> is_earliest_day d df' = true.
Proof.
  intros Hp [(r & Hr & Hd) Hle]%is_earliest_day_spec. apply is_earliest_day_spec. split.
  - exists r. split; [exact (Permutation_in _ Hp Hr) | exact Hd].
  - intros r' Hr'. apply Hle. exact (Permutation_in _ (Permutation_sym Hp) Hr').
Qed.

Lemma nunique_col_perm (col : Row -> Z) (f : Row -> bool) (df df' : DataFrame) :
  Permutation df df' ->
  nunique (map col (filter f df)) = nunique (map col (filter f df')).
Proof. intros Hp. now apply nunique_perm, Permutation_map, filter_perm. Qed.

Lemma sum_col_perm (col : Row -> Z) (f : Row -> bool) (df df' : DataFrame) :
  Permutation df df' ->
  series_sum (map col (filter f df)) = series_sum (map col (filter f df')).
Proof. intros Hp. now apply series_sum_perm, Permutation_map, filter_perm. Qed.

Lemma create_daily_orders_df_perm (df df' : DataFrame) :
  Permutation df df' -> create_daily_orders_df df = create_daily_orders_df df'.
Proof.
  intros Hp.
  destruct (create_daily_orders_df_cases df) as [->|(lo & hi & Hlo & Hhi)].
  - apply Permutation_nil in Hp. now subst.
  - rewrite (create_daily_orders_df_bins df lo hi Hlo Hhi).
    rewrite (create_daily_orders_df_bins df' lo hi
               (is_earliest_day_perm _ _ _ Hp Hlo) (is_latest_day_perm _ _ _ Hp Hhi)).
    apply map_ext. intros d. unfold daily_bin. f_equal.
    + now apply nunique_col_perm.
    + now apply sum_col_perm.
Qed.

Section GroupKeysPerm.

Context {K : Type}.
Variable eq_dec : forall x y : K, {x = y} + {x <> y}.
Variable leb : K -> K -> bool.
Hypothesis leb_total : forall x y, leb x y = true \/ leb y x = true.
Hypothesis leb_trans : forall x y z, leb x y = true -> leb y z = true -> leb x z = true.
Hypothesis leb_antisym : forall x y, leb x y = true -> leb y x = true -> x = y.
Variable key : Row -> K.

Lemma group_keys_perm (df df' : DataFrame) :
  Permutation df df' ->
  group_keys eq_dec leb key df = group_keys eq_dec leb key df'.
Proof.
  intros Hp. unfold group_keys.
  apply (sort_by_perm_eq leb leb_total leb_trans leb_antisym).
  apply NoDup_Permutation; try apply NoDup_nodup.
  intros k. rewrite !nodup_In.
  split; apply Permutation_in; [|symmetry]; now apply Permutation_map.
Qed.

End GroupKeysPerm.

Lemma max_order_timestamp_day_perm (g g' : DataFrame) :
  Permutation g g' ->
  dt_date (max_order_timestamp g) = dt_date (max_order_timestamp g').
Proof.
  intros Hp. destruct g as [|r g].
  - apply Permutation_nil in Hp. now subst.
  - destruct (series_max_some (map order_date (r :: g))) as [ts Hts]; [discriminate|].
    pose proof (latest_timestamp_day _ _ Hts) as Hlast.
    rewrite (max_order_timestamp_day (r :: g) _ Hlast).
    symmetry. apply max_order_timestamp_day.
    exact (is_latest_day_perm _ _ _ Hp Hlast).
Qed.

Lemma create_rfm_df_perm (df df' : DataFrame) :
  Permutation df df' -> create_rfm_df df = create_rfm_df df'.
Proof.
  intros Hp.
  destruct (create_rfm_df_cases df) as [->|(hi & Hhi & ->)].
  - apply Permutation_nil in Hp. now subst.
  - destruct (create_rfm_df_cases df') as [->|(hi' & Hhi' & ->)].
    + apply Permutation_sym, Permutation_nil in Hp. now subst.
    + rewrite (is_latest_day_unique _ _ _ Hhi' (is_latest_day_perm _ _ _ Hp Hhi)).
      rewrite (group_keys_perm Z.eq_dec Z.leb Z_leb_total Z_leb_trans Z_leb_antisym
                 customer_id df df' Hp).
      apply map_ext. intros k. unfold rfm_row. f_equal.
      * now apply nunique_col_perm.
      * now apply sum_col_perm.
      * f_equal. now apply max_order_timestamp_day_perm, filter_perm.
Qed.

Lemma count_customers_perm (col : Row -> string) (df df' : DataFrame) :
  Permutation df df' ->
  count_customers (groupby_string col df) = count_customers (groupby_string col df').
Proof.
  intros Hp. unfold count_customers, groupby_string, groupby. rewrite !map_map.
  rewrite (group_keys_perm string_dec String.leb String.leb_total string_leb_trans
             String.leb_antisym col df df' Hp).
  apply map_ext. intros k. cbn [fst snd]. f_equal. now apply nunique_col_perm.
Qed.

(** X18: the daily-orders table does not depend on the order in which the
    rows of the table come. *)
Theorem daily_orders_row_order_irrelevant (T T' : DataFrame) :
  Permutation T T' -> create_daily_orders_df T = create_daily_orders_df T'.
Proof. apply create_daily_orders_df_perm. Qed.

Lemma daily_orders_row_order_irrelevant_witness :
  let a := order_line 1 7 (timestamp 2024 1 1 9 30 0) 10 "Youth" in
  let b := order_line 2 8 (timestamp 2024 1 3 0 0 0) 20 "Adults" in
  create_daily_orders_df [a; b] = create_daily_orders_df [b; a].
Proof.
  intros a b.
  exact (daily_orders_row_order_irrelevant [a; b] [b; a] (perm_swap b a [])).
Defined.

(** X19: the RFM table does not depend on the order in which the rows of
    the table come. *)
Theorem rfm_row_order_irrelevant (T T' : DataFrame) :
  Permutation T T' -> create_rfm_df T = create_rfm_df T'.
Proof. apply create_rfm_df_perm. Qed.

Lemma rfm_row_order_irrelevant_witness :
  let a := order_line 1 7 (timestamp 2024 1 1 9 30 0) 10 "Youth" in
  let b := order_line 2 8 (timestamp 2024 1 3 0 0 0) 20 "Adults" in
  create_rfm_df [a; b] = create_rfm_df [b; a].
Proof.
  intros a b.
  exact (rfm_row_order_irrelevant [a; b] [b; a] (perm_swap b a [])).
Defined.

(** X20: the gender, age and state tables do not depend on the order in
    which the rows of the table come. *)
Theorem breakdowns_row_order_irrelevant (T T' : DataFrame) :
  Permutation T T' ->
  create_bygender_df T = create_bygender_df T' /\
  create_byage_df T = create_byage_df T' /\
  create_bystate_df T = create_bystate_df T'.
Proof.
  intros Hp. repeat split.
  - now apply count_customers_perm.
  - unfold create_byage_df. now rewrite (count_customers_perm age_group T T' Hp).
  - now apply count_customers_perm.
Qed.

Lemma breakdowns_row_order_irrelevant_witness :
  let a := item_line 1 7 0 "Cap" 1 10 "Female" "Youth" "Victoria" in
  let b := item_line 2 8 0 "Cap" 2 20 "Male" "Adults" "Tasmania" in
  create_bygender_df [a; b] = create_bygender_df [b; a] /\
  create_byage_df [a; b] = create_byage_df [b; a] /\
  create_bystate_df [a; b] = create_bystate_df [b; a].
Proof.
  intros a b.
  exact (breakdowns_row_order_irrelevant [a; b] [b; a] (perm_swap b a [])).
Defined.

(** ** More on the date filter and the loader *)

Lemma to_datetime_mono (d d' : Z) : d <= d' -> to_datetime d <= to_datetime d'.
Proof.
  intros H. unfold to_datetime.
  apply Z.mul_le_mono_nonneg_r; [apply Z.lt_le_incl, ns_per_day_pos | exact H].
Qed.

Lemma to_datetime_dt_date_le (ts : Z) : to_datetime (dt_date ts) <= ts.
Proof.
  unfold to_datetime, dt_date. rewrite Z.mul_comm.
  apply Z.mul_div_le, ns_per_day_pos.
Qed.

Lemma lower_bound_max (s s' t : Z) :
  (to_datetime (Z.max s s') <=? t)
  = (to_datetime s <=? t) && (to_datetime s' <=? t).
Proof.
  destruct (Z.max_spec s s') as [[H ->]|[H ->]].
  - pose proof (to_datetime_mono s s' (Z.lt_le_incl _ _ H)).
    destruct (Z.leb_spec (to_datetime s') t), (Z.leb_spec (to_datetime s) t);
      simpl; try reflexivity; lia.
  - pose proof (to_datetime_mono s' s H).
    destruct (Z.leb_spec (to_datetime s') t), (Z.leb_spec (to_datetime s) t);
      simpl; try reflexivity; lia.
Qed.

Lemma upper_bound_min (e e' t : Z) :
  (t <=? to_datetime (Z.min e e'))
  = (t <=? to_datetime e) && (t <=? to_datetime e').
Proof.
  destruct (Z.min_spec e e') as [[H ->]|[H ->]].
  - pose proof (to_datetime_mono e e' (Z.lt_le_incl _ _ H)).
    destruct (Z.leb_spec t (to_datetime e')), (Z.leb_spec t (to_datetime e));
      simpl; try reflexivity; lia.
  - pose proof (to_datetime_mono e' e H).
    destruct (Z.leb_spec t (to_datetime e')), (Z.leb_spec t (to_datetime e));
      simpl; try reflexivity; lia.
Qed.

(** X21: filtering an already filtered table by a second range is the
    filter by the intersection of the two ranges. *)
Theorem main_df_narrow (all_df : DataFrame) (s e s' e' : Z) :
  main_df (main_df all_df s e) s' e'
  = main_df all_df (Z.max s s') (Z.min e e').
Proof.
  unfold main_df. induction all_df as [|r df IH]; [reflexivity|].
  cbn [filter]. rewrite lower_bound_max, upper_bound_min, <- IH.
  destruct (to_datetime s <=? order_date r), (order_date r <=? to_datetime e);
    cbn [andb filter];
    destruct (to_datetime s' <=? order_date r), (order_date r <=? to_datetime e');
    reflexivity.
Qed.

Lemma date_only_spec (df : DataFrame) :
  date_only df = true <-> forall r, In r df -> order_date r = to_datetime (day_of r).
Proof.
  unfold date_only. rewrite forallb_forall. setoid_rewrite Z.eqb_eq. reflexivity.
Qed.

(** X22: on a table that carries dates without a time of day, the range
    the date picker starts with, from the day of [min_date] to the day of
    [max_date], keeps every row. *)
Theorem default_range_keeps_date_only_table (all_df : DataFrame) (mn mx : Z) :
  date_only all_df = true ->
  min_date all_df = Some mn ->
  max_date all_df = Some mx ->
  main_df all_df (dt_date mn) (dt_date mx) = all_df.
Proof.
  intros Hd [_ Hmn]%series_min_spec [_ Hmx]%series_max_spec.
  rewrite date_only_spec in Hd.
  apply filter_all. intros r Hr.
  pose proof (in_map order_date _ _ Hr) as Hin.
  apply andb_true_iff. rewrite !Z.leb_le. split.
  - pose proof (to_datetime_dt_date_le mn). specialize (Hmn _ Hin). lia.
  - rewrite (Hd r Hr). apply to_datetime_mono. unfold day_of.
    apply dt_date_mono, Hmx, Hin.
Qed.

Lemma default_range_keeps_date_only_table_witness :
  let all_df := [order_line 1 7 (timestamp 2024 1 1 0 0 0) 10 "Youth";
                 order_line 2 8 (timestamp 2024 1 3 0 0 0) 20 "Adults"] in
  main_df all_df (days_from_civil 2024 1 1) (days_from_civil 2024 1 3) = all_df.
Proof.
  intros all_df.
  exact (default_range_keeps_date_only_table all_df
           (timestamp 2024 1 1 0 0 0) (timestamp 2024 1 3 0 0 0)
           eq_refl eq_refl eq_refl).
Defined.

Lemma load_data_sorted (csv : DataFrame) :
  StronglySorted (fun a b => order_date a <= order_date b) (load_data csv).
Proof.
  unfold load_data.
  apply StronglySorted_weaken
    with (R := fun a b => (order_date a <=? order_date b) = true).
  - intros a b H. now apply Z.leb_le.
  - apply (sort_by_sorted (fun a b => order_date a <=? order_date b)).
    + intros x y. apply Z_leb_total.
    + intros x y z. apply Z_leb_trans.
Qed.

(** X23: the loaded table holds the rows of the file, each as often as the
    file has it, in ascending order of order date. *)
Theorem load_data_sorts_the_file (csv : DataFrame) :
  Permutation csv (load_data csv) /\
  StronglySorted (fun a b => order_date a <= order_date b) (load_data csv).
Proof.
  split; [apply sort_by_perm | apply load_data_sorted].
Qed.

(** X24: the filtered table is in ascending order of order date, whatever
    the order of the file and whatever the selected range. *)
Theorem filtered_table_sorted (csv : DataFrame) (s e : Z) :
  StronglySorted (fun a b => order_date a <= order_date b)
                 (main_df (load_data csv) s e).
Proof.
  unfold main_df. apply StronglySorted_filter, load_data_sorted.
Qed.

(** X25: the daily-orders, gender, age, state and RFM tables of the
    dashboard do not depend on the order of the rows in the file. *)
Theorem dashboard_independent_of_file_order (csv csv' : DataFrame) (s e : Z) :
  Permutation csv csv' ->
  let a := prepare (load_data csv) s e in
  let a' := prepare (load_data csv') s e in
  daily_orders_df a = daily_orders_df a' /\
  bygender_df a = bygender_df a' /\
  byage_df a = byage_df a' /\
  bystate_df a = bystate_df a' /\
  rfm_df a = rfm_df a'.
Proof.
  intros Hp a a'. unfold a, a', prepare.
  cbn [daily_orders_df bygender_df byage_df bystate_df rfm_df].
  assert (Hm : Permutation (main_df (load_data csv) s e) (main_df (load_data csv') s e)).
  { unfold main_df, load_data. apply filter_perm.
    rewrite <- !sort_by_perm. exact Hp. }
  repeat split.
  - now apply create_daily_orders_df_perm.
  - now apply count_customers_perm.
  - unfold create_byage_df. now rewrite (count_customers_perm age_group _ _ Hm).
  - now apply count_customers_perm.
  - now apply create_rfm_df_perm.
Qed.

Lemma dashboard_independent_of_file_order_witness :
  let x := item_line 1 7 (timestamp 2024 1 2 0 0 0) "Cap" 1 10 "Female" "Youth" "Victoria" in
  let y := item_line 2 8 (timestamp 2024 1 2 0 0 0) "Cap" 2 20 "Male" "Adults" "Tasmania" in
  let s := days_from_civil 2024 1 1 in
  let e := days_from_civil 2024 1 3 in
  daily_orders_df (prepare (load_data [x; y]) s e)
  = daily_orders_df (prepare (load_data [y; x]) s e) /\
  bygender_df (prepare (load_data [x; y]) s e)
  = bygender_df (prepare (load_data [y; x]) s e) /\
  byage_df (prepare (load_data [x; y]) s e)
  = byage_df (prepare (load_data [y; x]) s e) /\
  bystate_df (prepare (load_data [x; y]) s e)
  = bystate_df (prepare (load_data [y; x]) s e) /\
  rfm_df (prepare (load_data [x; y]) s e)
  = rfm_df (prepare (load_data [y; x]) s e).
Proof.
  intros x y s e.
  exact (dashboard_independent_of_file_order [x; y] [y; x] s e (perm_swap y x [])).
Defined.
